(* ===== verification/_CoqProject ===== *)
-Q . S2P
Prelude.v
Effects.v
Genai.v
ListModels.v
Citations.v
Prompt.v
Store.v
Builder.v
ChatLoop.v
Chatbot.v
AppSession.v
App.v
