(* ===== verification/Prelude.v ===== *)
(** * A verification development for gemini-custom-bot

    The repository is a thin Python client of the Gemini API (the
    [google.generativeai] library).  Its four scripts are:
    - src/create_store.py: uploads the PDFs of ./papers/ one by one and
      writes a store document "<uuid>.json" listing the remote names;
    - src/chatbot.py: a command-line chat; it loads a store document,
      resolves its files, picks a model from a fallback list and loops on
      questions, sending each with a window of history and the files;
    - src/app.py: the same as a Streamlit page, whose session keeps the
      store id, the chat history and the API key across runs;
    - src/list_models.py: lists the models of the service, split into
      "free" and "paid".
    They interact only through the store document on disk and the remote
    service.

    ** Files, in dependency order (_CoqProject)

    - [Prelude] (this file): Python [str] as a list of code points
      ([pystr]), the builtins the sources call ([strip], [lower], [split],
      [join], [replace], [in], [xs[-k:]], [str(int)]), their lemmas, the
      scope [py_scope] and the hint databases [py] and [pyrw].
    - [Effects]: JSON values, exceptions, the world (local files, remote
      state, console, stdin, clock, UUIDs, and the key [genai.configure]
      set for the whole process) and the monad [PyM] of a
      script's effects ([print], [input], [json.load], [json.dump],
      [time.sleep], [uuid.uuid4], [try]/[except], [sys.exit]); the exit
      discipline [exits_with]/[no_raise] with its hint database [pyexit]
      and the tactic [exits_solve].
    - [Genai]: the remote service as the class [Genai] (upload, get,
      model construction, its [model_name] probe, generation, catalogue)
      with the laws [GenaiLaws] that clients rely on, and
      [genai.configure]; [SimGenai] is an implementation that discharges
      the laws and runs the scenarios.
    - [ListModels]: src/list_models.py in full.  Each script's embedded
      [API_KEY] is a definition of a module [<script>_config] of its file.
    - [Citations]: the citation extractor of chatbot.py
      ([extract_citations]) and, translated separately, its inline copy
      in app.py; the order of [list(set(...))] is the class [PySet], one
      instance per process.
    - [Prompt]: the prompt of each front end and the spec's contract
      [assemble].
    - [Store]: the store document and both loaders (chatbot.py lines
      62-87, app.py [load_document_store], which reads
      [st.session_state.api_key] and configures the library with it).
    - [Builder]: [create_file_search_store] and the entry point of
      create_store.py, and [create_document_store] (app.py).
    - [ChatLoop]: the [while True] loop of chatbot.py, with its
      reachability relation [chat_reachable].
    - [Chatbot]: the model fallback loop, the ModelUnavailable exit and
      [run_chatbot] composed of loader, selection, banner and loop.
    - [AppSession]: [st.session_state] ([Session]), the widget values of
      a run ([Inputs]) and the monad [AppM] of a run, which threads the
      session beside the world, keeps it when a run raises and has
      [st.rerun()] as an outcome; [preserves] and its lemmas.
    - [App]: the Streamlit script as a run over the session
      ([app_script]), user events with [st.rerun()] ([app_event]), the
      reachable sessions ([app_reachable]), and the composition of the
      sidebar's buttons with the builder and the loader.

    ** What the theorems show

    - functional behaviour of every operation on each branch, errors
      included, stated against reference definitions ([resolved],
      [warnings], [run_uploads], [turn_result], [select_ref],
      [classify_ref], [chat_answer]);
    - refinement: each front end's prompt is [assemble] on its window
      (3 turns in app.py, 2 in chatbot.py); the fallback loop implements
      the spec's [selectFirstAvailable]; a web chat turn is the spec's
      [addQuestion] then [setAnswer]; the "Create Document Store" and
      "Load Document Store" buttons record the store in the session
      exactly when the builder or the loader succeeds; [run_chatbot] is the chat loop after
      its set-up; a store built by create_store.py loads back (against
      [GenaiLaws], so for any service that keeps its files);
    - invariants by rule induction: the chatbot's history is whole turns
      in every reachable state; a web session is loaded exactly when a
      store id is recorded, and then has a key;
    - safety of the shared credential: a web chat turn configures the
      library with its own session's key before its calls, whatever key
      the process held; an example shows two sessions' turns interleaved
      at a network call, where one turn's call runs with the other's key;
    - a type: the store document ([Store.store_doc_ok]) is what both
      builders write and what both loaders read without raising;
    - a round trip: the chatbot's history lines read back as its turns;
    - bounds: the length of each front end's prompt is bounded by the
      size of the turns in its window, not by the conversation's length;
    - termination and divergence of the chat loop, and the exit codes of
      the chatbot ([sys.exit(1)] only, never a traceback);
    - the findings (PROJECT.json): the EOF loop of chatbot.py, the
      AttributeError of app.py's first page, the unprobed model the
      fallback loop keeps, and the places where the code and the spec
      differ (window sizes, citation labels, the clear action, the
      builder of app.py aborting on the first failed upload).

    ** Bounds and fuel

    The chat loop has no bound of its own: [chat_loop] takes fuel and
    [NoFuel] is the outcome when it runs out.  The termination theorem
    gives the fuel explicitly (one iteration per line read, so
    [length pre < fuel] is enough), and the divergence theorem holds for
    every fuel.  All other loops are structural on their lists.  Integers
    are [nat] or [Z] at Python's unbounded width; there is no machine
    arithmetic in the sources.

    ** Not modelled

    The [google.generativeai] library is the interface [Genai], not its
    code; [genai.configure] is the key it records for the process, and
    the simulated service answers whatever the key (a valid key is
    assumed).  The Streamlit page layout (page configuration, title,
    headers, dividers, footer, style, spinners, the builder's progress
    bar) only displays.  The web app is modelled one session at a time;
    sessions share only the process (files, service, configured key).  [str.lower] is
    modelled on ASCII letters only (other code points are kept); the
    [repr] of lists and dicts in f-strings is a fixed placeholder;
    [KeyboardInterrupt] is not modelled.  The lines left out of the map
    are docstrings, imports, Streamlit's page configuration and
    footer. *)

From stdpp Require Import base list gmap strings.
From Stdlib Require Import NArith Ascii DecimalString.
#[local] Set Warnings "-clear-no-such-hyp".

(** ** Python strings *)

(** A Python [str] is a sequence of Unicode code points. *)
Abbreviation pystr := (list N).

(** An ASCII literal as a Python string: [py "quit"]. *)
Fixpoint py (s : string) : pystr :=
  match s with
  | EmptyString => []
  | String a t => Ascii.N_of_ascii a :: py t
  end.

(** Literals stay folded under [simpl]; [vm_compute] still evaluates them. *)
Arguments py : simpl never.

Declare Scope py_scope.
Delimit Scope py_scope with py.
Notation "a +++ b" := (@app N a b) (at level 60, right associativity) : py_scope.
Open Scope py_scope.

(** Code points the sources write as escapes or emoji. *)
Definition NL : N := 10.             (* '\n' *)
Definition SLASH : N := 47.          (* '/'  *)
Definition BOOKS : N := 0x1F4DA.     (* U+1F4DA BOOKS, the "📚" of the sources *)
Definition WARN : N := 0x26A0.       (* "⚠" *)
Definition CHECK : N := 0x2713.      (* "✓" *)
Definition CROSS : N := 0x274C.      (* "❌" *)
Definition QUESTION : N := 0x2753.   (* "❓" *)
Definition WAVE : N := 0x1F44B.      (* "👋" *)
Definition THINK : N := 0x1F914.     (* "🤔" *)
Definition ROBOT : N := 0x1F916.     (* "🤖" *)
Definition CHECKMARK : N := 0x2705.  (* "✅" *)

(** [str(n)] of a non-negative [int]. *)
Definition py_int (n : nat) : pystr := py (NilEmpty.string_of_uint (Nat.to_uint n)).

(** Python truthiness of a [str] or a [list]: non-empty. *)
Definition truthy {A} (l : list A) : bool := negb (bool_decide (l = [])).

(** [str.isspace] on one code point: the characters [str.strip()] removes
    (Unicode White_Space as Python defines it). *)
Definition is_space (c : N) : bool :=
  (((9 <=? c) && (c <=? 13)) || ((28 <=? c) && (c <=? 32)) ||
  (c =? 0x85) || (c =? 0xA0) || (c =? 0x1680) ||
  ((0x2000 <=? c) && (c <=? 0x200A)) ||
  (c =? 0x2028) || (c =? 0x2029) || (c =? 0x202F) || (c =? 0x205F) ||
  (c =? 0x3000))%N.

Fixpoint lstrip (s : pystr) : pystr :=
  match s with
  | [] => []
  | c :: t => if is_space c then lstrip t else s
  end.

(** [str.strip()] with no argument. *)
Definition py_strip (s : pystr) : pystr := reverse (lstrip (reverse (lstrip s))).

(** [str.lower()] on ASCII letters.  Every comparison the sources make
    after [lower()] is against ASCII text without 'k', so code points
    outside ASCII may be left as they are (see the header of the root). *)
Definition lower_cp (c : N) : N := if ((65 <=? c) && (c <=? 90))%N then (c + 32)%N else c.
Definition py_lower (s : pystr) : pystr := map lower_cp s.

(** [str.endswith] and [str.startswith]. *)
Definition py_endswith (suf s : pystr) : bool := bool_decide (suf `suffix_of` s).
Definition py_startswith (pre s : pystr) : bool := bool_decide (pre `prefix_of` s).

(** The [in] operator on strings: [sub in s]. *)
Fixpoint py_contains (sub s : pystr) : bool :=
  py_startswith sub s ||
  match s with
  | [] => false
  | _ :: t => py_contains sub t
  end.

(** [s.split(sep)] for a one-character separator: always at least one
    field. *)
Fixpoint py_split (sep : N) (s : pystr) : list pystr :=
  match s with
  | [] => [[]]
  | c :: t =>
      let r := py_split sep t in
      if decide (c = sep) then [] :: r
      else match r with
           | [] => [[c]]
           | w :: ws => (c :: w) :: ws
           end
  end.

(** [xs[-1]] on a list that is known to be non-empty. *)
Definition py_last {A} (d : A) (xs : list A) : A := default d (last xs).

(** [sep.join(xs)]. *)
Fixpoint py_join (sep : pystr) (xs : list pystr) : pystr :=
  match xs with
  | [] => []
  | [x] => x
  | x :: xs => x +++ sep +++ py_join sep xs
  end.

(** [xs[-k:]]: the last [k] elements; [xs[-0:]] is the whole list. *)
Definition py_tail {A} (k : nat) (xs : list A) : list A :=
  match k with
  | O => xs
  | S _ => drop (length xs - k) xs
  end.

(** [s.replace(old, new)] for a non-empty [old]: the occurrences of
    [old] are replaced from left to right, without overlap.  [k] counts
    the characters of a replaced occurrence still to be skipped. *)
Fixpoint py_replace_go (old new : pystr) (k : nat) (s : pystr) : pystr :=
  match s with
  | [] => []
  | c :: t =>
      match k with
      | S k' => py_replace_go old new k' t
      | O => if py_startswith old s then new +++ py_replace_go old new (length old - 1) t
             else c :: py_replace_go old new 0 t
      end
  end.

Definition py_replace (old new s : pystr) : pystr := py_replace_go old new 0 s.

(** [c * k] for a one-character string [c]. *)
Definition py_repeat (c : N) (k : nat) : pystr := replicate k c.

(** ** Automation *)

Create HintDb py.
Create Rewrite HintDb pyrw.

(** ** Lemmas on the string and list builtins *)

Lemma py_replace_skip old new x s :
  py_replace_go old new (length x) (x ++ s) = py_replace_go old new 0 s.
Proof. induction x as [|c x IH]; [done|]. simpl. exact IH. Qed.

Lemma py_replace_nomatch old new s : py_contains old s = false -> py_replace old new s = s.
Proof.
  unfold py_replace. induction s as [|c t IH]; [done|]. simpl.
  intros [Hs Ht]%orb_false_iff. rewrite Hs. f_equal. by apply IH.
Qed.

(** A string that starts with [old] loses that occurrence. *)
Lemma py_replace_prefix old new s :
  old <> [] -> py_replace old new (old ++ s) = new +++ py_replace old new s.
Proof.
  intros Hold. destruct old as [|c o]; [done|]. unfold py_replace. simpl.
  unfold py_startswith at 1. rewrite bool_decide_true by (by exists s). f_equal.
  replace (length o - 0) with (length o) by lia. apply py_replace_skip.
Qed.

(** A joined string is at most its parts and one separator per part. *)
Lemma py_join_length_le sep xs M :
  Forall (fun x => length x <= M) xs -> length (py_join sep xs) <= length xs * (M + length sep).
Proof.
  induction xs as [|x [|y xs] IH]; intros Hall; [simpl; lia| |].
  - apply Forall_cons in Hall as [Hx _]. simpl. lia.
  - apply Forall_cons in Hall as [Hx Hall]. specialize (IH Hall).
    change (py_join sep (x :: y :: xs)) with (x +++ sep +++ py_join sep (y :: xs)).
    rewrite !length_app. simpl in *. lia.
Qed.

Lemma py_app_nil_r (s : pystr) : s +++ [] = s.
Proof. apply app_nil_r. Qed.

Lemma truthy_true {A} (l : list A) : truthy l = true <-> l <> [].
Proof. unfold truthy. case_bool_decide; naive_solver. Qed.

Lemma truthy_false {A} (l : list A) : truthy l = false <-> l = [].
Proof. unfold truthy. case_bool_decide; naive_solver. Qed.

Lemma py_split_not_nil sep s : py_split sep s <> [].
Proof.
  induction s as [|c t IH]; simpl; [done|].
  case_decide; [done|]. destruct (py_split sep t); done.
Qed.

(** Joining the fields of a split with the separator gives the string back. *)
Lemma py_join_split sep s : py_join [sep] (py_split sep s) = s.
Proof.
  induction s as [|c t IH]; simpl; [done|].
  pose proof (py_split_not_nil sep t) as Hne.
  case_decide as Hc.
  - subst. destruct (py_split sep t) as [|w ws]; [done|].
    simpl in *. by rewrite IH.
  - destruct (py_split sep t) as [|w [|w' ws]]; simpl in *; [done| |];
      by rewrite IH.
Qed.

(** No field of a split holds the separator. *)
Lemma py_split_fields sep s w : w ∈ py_split sep s -> sep ∉ w.
Proof.
  revert w. induction s as [|c t IH]; intros w Hw; simpl in Hw.
  - apply list_elem_of_singleton in Hw. subst. apply not_elem_of_nil.
  - pose proof (IH) as IH'. case_decide as Hc.
    + apply elem_of_cons in Hw as [->|Hw]; [apply not_elem_of_nil|auto].
    + destruct (py_split sep t) as [|w0 ws] eqn:E.
      * apply list_elem_of_singleton in Hw. subst.
        apply not_elem_of_cons. split; [done|apply not_elem_of_nil].
      * apply elem_of_cons in Hw as [->|Hw].
        -- apply not_elem_of_cons. split; [done|]. apply IH. left.
        -- apply IH. by right.
Qed.

Lemma py_tail_suffix {A} k (xs : list A) : py_tail k xs `suffix_of` xs.
Proof. destruct k; [done|]. apply suffix_drop. Qed.

Lemma py_tail_length {A} k (xs : list A) :
  k <> O -> length (py_tail k xs) = Nat.min k (length xs).
Proof. destruct k; [done|]. intros _. unfold py_tail. rewrite length_drop. lia. Qed.

(** Taking the last [k] elements of [xs ++ [x]]. *)
Lemma py_tail_whole {A} k (xs : list A) : length xs <= k -> py_tail k xs = xs.
Proof. destruct k; [done|]. intros H. simpl. by replace (length xs - S k) with O by lia. Qed.

Lemma py_lower_app a b : py_lower (a +++ b) = py_lower a +++ py_lower b.
Proof. apply map_app. Qed.

Lemma py_join_app_single sep xs x :
  xs <> [] -> py_join sep (xs ++ [x]) = py_join sep xs +++ sep +++ x.
Proof.
  induction xs as [|y ys IH]; intros Hne; [done|].
  destruct ys as [|z zs]; [done|].
  assert (Hj : py_join sep ((y :: z :: zs) ++ [x])
               = y +++ sep +++ py_join sep ((z :: zs) ++ [x])) by done.
  rewrite Hj, IH by done. cbn [py_join]. by rewrite !app_assoc.
Qed.

#[export] Hint Rewrite @py_app_nil_r py_join_split py_lower_app : pyrw.
#[export] Hint Resolve py_split_not_nil py_tail_suffix : py.

(** The last field of a split: it holds no separator, and it is the
    whole string or what follows the last separator. *)
Lemma py_last_split sep s :
  let l := py_last [] (py_split sep s) in
  (sep ∉ l) /\ (s = l \/ exists pre, s = pre +++ [sep] +++ l).
Proof.
  destruct (exists_last (py_split_not_nil sep s)) as (init & l & E).
  pose proof (py_join_split sep s) as Hs. pose proof (py_split_fields sep s l) as Hf.
  unfold py_last. rewrite E in Hs, Hf |- *. rewrite last_snoc. simpl.
  split; [apply Hf, elem_of_app; right; apply list_elem_of_singleton; done|].
  destruct init as [|x init]; [left; done|].
  right. exists (py_join [sep] (x :: init)).
  rewrite py_join_app_single in Hs by done. by rewrite <- Hs.
Qed.

Lemma py_split_no_sep sep x : sep ∉ x -> py_split sep x = [x].
Proof.
  induction x as [|c t IH]; intros Hx; [done|]. simpl.
  rewrite elem_of_cons in Hx. rewrite IH by naive_solver.
  case_decide; [naive_solver|done].
Qed.

Lemma py_split_after_sep sep pre x :
  exists ws, ws <> [] /\ py_split sep (pre +++ [sep] +++ x) = ws ++ py_split sep x.
Proof.
  induction pre as [|c pre (ws & Hws & IH)]; simpl in *.
  - exists [[]]. rewrite decide_True by done. done.
  - rewrite IH. case_decide; [by exists ([] :: ws)|].
    destruct ws as [|w ws]; [done|]. by exists ((c :: w) :: ws).
Qed.

(** Conversely, the last field is determined by those two facts. *)
Lemma py_last_split_unique sep s x :
  sep ∉ x -> (s = x \/ exists pre, s = pre +++ [sep] +++ x) -> py_last [] (py_split sep s) = x.
Proof.
  intros Hx [->|(pre & ->)]; [by rewrite py_split_no_sep|].
  destruct (py_split_after_sep sep pre x) as (ws & _ & ->).
  rewrite py_split_no_sep by done. unfold py_last. by rewrite last_snoc.
Qed.

(** Occurrences of [sub] in [s], at every position. *)
Fixpoint occurrences (sub s : pystr) : nat :=
  (if py_startswith sub s then 1 else 0) +
  match s with
  | [] => 0
  | _ :: t => occurrences sub t
  end.

(** A duplicate-free list with the same elements as a two-element list
    is that list in one of its two orders. *)
Lemma NoDup_same_elems_2 {A} (l : list A) (x y : A) :
  NoDup l -> x <> y -> (forall z, z ∈ l <-> z ∈ [x; y]) -> l = [x; y] \/ l = [y; x].
Proof.
  intros Hl Hxy Hel.
  assert (Hp : l ≡ₚ [x; y]).
  { apply NoDup_Permutation; [done| |done]. apply NoDup_cons; split; [rewrite list_elem_of_singleton; done|].
    apply NoDup_singleton. }
  apply Permutation_length_2_inv. done.
Qed.

Lemma py_join_cons sep x xs :
  xs <> [] -> py_join sep (x :: xs) = x +++ sep +++ py_join sep xs.
Proof. by destruct xs. Qed.

Lemma py_join_app sep xs ys :
  xs <> [] -> ys <> [] -> py_join sep (xs ++ ys) = py_join sep xs +++ sep +++ py_join sep ys.
Proof.
  intros Hx Hy. induction xs as [|x xs IH]; [done|].
  destruct xs as [|x' xs]; [by apply py_join_cons|].
  change ((x :: x' :: xs) ++ ys) with (x :: ((x' :: xs) ++ ys)).
  rewrite py_join_cons by (intros Hn; discriminate Hn).
  rewrite IH by (intros Hn; discriminate Hn).
  rewrite (py_join_cons sep x (x' :: xs)) by (intros Hn; discriminate Hn).
  by rewrite !app_assoc.
Qed.

(** Joining joined groups is joining their concatenation, when no group
    is empty. *)
Lemma py_join_concat sep (xss : list (list pystr)) :
  Forall (fun xs => xs <> []) xss ->
  py_join sep (map (py_join sep) xss) = py_join sep (concat xss).
Proof.
  induction xss as [|xs xss IH]; intros Hall; [done|].
  apply Forall_cons in Hall as [Hxs Hall].
  destruct xss as [|ys yss]; cbn [map concat]; [by rewrite app_nil_r|].
  apply Forall_cons in Hall as Hall'. destruct Hall' as [Hys _].
  rewrite py_join_cons by (intros Hn; discriminate Hn).
  specialize (IH Hall). cbn [map concat] in IH. rewrite IH.
  rewrite (py_join_app sep xs (ys ++ concat yss)); [done|done|].
  destruct ys; [done|]. intros Hn; discriminate Hn.
Qed.

(** The last [k] groups of equal length [n], flattened, are the last
    [n * k] items of the flattened list. *)
Lemma drop_concat_uniform {A} n k (xss : list (list A)) :
  Forall (fun xs => length xs = n) xss ->
  drop (n * k) (concat xss) = concat (drop k xss).
Proof.
  revert xss. induction k as [|k IH]; intros xss Hall.
  - replace (n * 0) with 0 by lia. reflexivity.
  - destruct xss as [|xs xss]; [simpl; apply drop_nil|].
    apply Forall_cons in Hall as [Hxs Hall]. simpl.
    replace (n * S k) with (length xs + n * k) by lia.
    rewrite drop_app_add'; [by apply IH|done].
Qed.

Lemma length_concat_uniform {A} n (xss : list (list A)) :
  Forall (fun xs => length xs = n) xss -> length (concat xss) = n * length xss.
Proof.
  induction xss as [|xs xss IH]; intros Hall; simpl; [lia|].
  apply Forall_cons in Hall as [Hxs Hall]. rewrite length_app, IH by done. lia.
Qed.
