(* ===== verification/Effects.v ===== *)
(** * Effects: the world a script runs in, and the Python effect monad

    The scripts of src/ are straight-line Python that reads and writes
    JSON files, prints to the console, reads lines with [input()], sleeps,
    draws UUIDs, raises and catches exceptions, and calls [sys.exit].
    This file models those effects once:

    - [json]: the values [json.load] returns and [json.dump] writes;
    - [PyExc], [outcome]: an exception of a class derived from
      [Exception] (caught by [except Exception]) and [SystemExit] (not
      caught by it, so [sys.exit(1)] inside a [try] still ends the run);
    - [World R]: the local files, the state [R] of the remote service,
      the console output, standard input, the clock and the UUID source;
    - [PyM R A]: state passing over [World R] with those outcomes, with
      [print], [input], [open]+[json.load], [open]+[json.dump],
      [time.sleep], [uuid.uuid4] and [try]/[except] as operations;
    - [exits_with P m] and [no_raise m]: which exit codes [m] can end
      with and that no exception escapes it, with compositional lemmas,
      the hint database [pyexit] and the tactic [exits_solve]. *)

From stdpp Require Import base list gmap strings.
From S2P Require Import Prelude.
#[local] Set Warnings "-clear-no-such-hyp".

(** ** JSON values *)

#[local] Set Warnings "-register-all".
Inductive json :=
| JNull
| JBool (b : bool)
| JNum (z : Z)
| JStr (s : pystr)
| JArr (l : list json)
| JObj (kvs : list (pystr * json)).

(** [d[k]] on an object read by [json.load]: a later duplicate key
    overrides an earlier one, as in the dict [json.load] builds. *)
Definition obj_lookup (k : pystr) (kvs : list (pystr * json)) : option json :=
  foldl (fun acc kv => if decide (k = kv.1) then Some kv.2 else acc) None kvs.

(** ** Exceptions and outcomes *)

Inductive exc_class :=
| FileNotFoundError
| KeyError
| TypeError
| AttributeError
| ValueError
| EOFError
| APIError.        (* any error the google.generativeai client raises *)

#[export] Instance exc_class_eq_dec : EqDecision exc_class.
Proof. solve_decision. Defined.

(** An exception and [str(e)]. *)
Record PyExc := mkExc { exc_kind : exc_class; exc_msg : pystr }.

Inductive outcome (A : Type) :=
| Ok (a : A)
| Raise (e : PyExc)          (* an [Exception] propagating *)
| Exit (code : N)            (* [SystemExit] from [sys.exit(code)] *)
| NoFuel.                    (* a loop ran out of the fuel given to the model *)
Arguments Ok {A} a.
Arguments Raise {A} e.
Arguments Exit {A} code.
Arguments NoFuel {A}.

(** ** The world *)

(** A local file: a JSON document, or bytes that [json.load] rejects. *)
Inductive fcontent := FJson (j : json) | FBytes (b : pystr).

Record World (R : Type) := mkWorld {
  w_fs : gmap pystr fcontent;   (* files of the working directory, by name *)
  w_remote : R;                 (* the remote service's state *)
  w_out : list pystr;           (* console output, one entry per print/input *)
  w_stdin : list pystr;         (* lines still to be read by input() *)
  w_clock : nat;                (* seconds spent in time.sleep *)
  w_uuid : nat -> pystr;        (* the UUID source: the n-th uuid4() *)
  w_uuids : nat;                (* uuid4() calls so far *)
  w_dirs : gmap pystr (list pystr);  (* directories and their os.listdir order *)
  w_genai_key : option pystr    (* the api_key genai.configure set, process-wide *)
}.
Arguments mkWorld {R}.
Arguments w_fs {R}. Arguments w_remote {R}. Arguments w_out {R}.
Arguments w_stdin {R}. Arguments w_clock {R}. Arguments w_uuid {R}.
Arguments w_uuids {R}. Arguments w_dirs {R}. Arguments w_genai_key {R}.

Definition PyM (R A : Type) := World R -> outcome A * World R.

Section Monad.
Context {R : Type}.
Local Abbreviation PyM := (PyM R).

Definition ret {A} (a : A) : PyM A := fun w => (Ok a, w).

Definition bind {A B} (m : PyM A) (k : A -> PyM B) : PyM B := fun w =>
  match m w with
  | (Ok a, w') => k a w'
  | (Raise e, w') => (Raise e, w')
  | (Exit c, w') => (Exit c, w')
  | (NoFuel, w') => (NoFuel, w')
  end.

Definition raise {A} (e : PyExc) : PyM A := fun w => (Raise e, w).
Definition sys_exit {A} (code : N) : PyM A := fun w => (Exit code, w).

(** [try: m except Exception as e: h e]: [SystemExit] passes through. *)
Definition try_except {A} (m : PyM A) (h : PyExc -> PyM A) : PyM A := fun w =>
  match m w with
  | (Raise e, w') => h e w'
  | (o, w') => (o, w')
  end.

(** [try: m except C as e: h e] for one exception class [C]. *)
Definition try_except_class {A} (c : exc_class) (m : PyM A) (h : PyExc -> PyM A) : PyM A :=
  fun w =>
  match m w with
  | (Raise e, w') => if decide (exc_kind e = c) then h e w' else (Raise e, w')
  | (o, w') => (o, w')
  end.

(** A result of the remote client, raised when it is an error. *)
Definition lift {A} (r : PyExc + A) : PyM A :=
  match r with inl e => raise e | inr a => ret a end.

Definition modify (f : World R -> World R) : PyM unit := fun w => (Ok tt, f w).
Definition gets {A} (f : World R -> A) : PyM A := fun w => (Ok (f w), w).

End Monad.

Declare Scope pym_scope.
Delimit Scope pym_scope with pym.
Notation "x <- m ;; k" := (bind m (fun x => k))
  (at level 100, m at next level, right associativity) : pym_scope.
Notation "m ;; k" := (bind m (fun _ => k))
  (at level 100, right associativity) : pym_scope.
Open Scope pym_scope.

Section Ops.
Context {R : Type}.
Local Abbreviation PyM := (PyM R).

Definition set_out (o : list pystr) (w : World R) : World R :=
  mkWorld (w_fs w) (w_remote w) o (w_stdin w) (w_clock w) (w_uuid w) (w_uuids w) (w_dirs w) (w_genai_key w).
Definition set_fs (fs : gmap pystr fcontent) (w : World R) : World R :=
  mkWorld fs (w_remote w) (w_out w) (w_stdin w) (w_clock w) (w_uuid w) (w_uuids w) (w_dirs w) (w_genai_key w).
Definition set_remote (r : R) (w : World R) : World R :=
  mkWorld (w_fs w) r (w_out w) (w_stdin w) (w_clock w) (w_uuid w) (w_uuids w) (w_dirs w) (w_genai_key w).
Definition set_stdin (i : list pystr) (w : World R) : World R :=
  mkWorld (w_fs w) (w_remote w) (w_out w) i (w_clock w) (w_uuid w) (w_uuids w) (w_dirs w) (w_genai_key w).
Definition set_clock (c : nat) (w : World R) : World R :=
  mkWorld (w_fs w) (w_remote w) (w_out w) (w_stdin w) c (w_uuid w) (w_uuids w) (w_dirs w) (w_genai_key w).
Definition set_genai_key (k : option pystr) (w : World R) : World R :=
  mkWorld (w_fs w) (w_remote w) (w_out w) (w_stdin w) (w_clock w) (w_uuid w) (w_uuids w) (w_dirs w) k.
Definition set_uuids (n : nat) (w : World R) : World R :=
  mkWorld (w_fs w) (w_remote w) (w_out w) (w_stdin w) (w_clock w) (w_uuid w) n (w_dirs w) (w_genai_key w).

(** [print(s)]. *)
Definition print (s : pystr) : PyM unit := modify (fun w => set_out (w_out w ++ [s]) w).

(** The [EOFError] of [input()] at the end of a non-terminal stdin. *)
Definition eof_error : PyExc := mkExc EOFError (py "EOF when reading a line").

(** [input(prompt)]: the prompt is written, then one line is read;
    at the end of input it raises [EOFError], with the message CPython
    gives when stdin is not a terminal. *)
Definition input (prompt : pystr) : PyM pystr := fun w =>
  let w1 := set_out (w_out w ++ [prompt]) w in
  match w_stdin w with
  | [] => (Raise eof_error, w1)
  | l :: ls => (Ok l, set_stdin ls w1)
  end.

(** [time.sleep(n)]. *)
Definition sleep (n : nat) : PyM unit := modify (fun w => set_clock (w_clock w + n) w).

(** [str(uuid.uuid4())]. *)
Definition uuid4 : PyM pystr := fun w =>
  (Ok (w_uuid w (w_uuids w)), set_uuids (S (w_uuids w)) w).

(** [os.path.exists(d)] and [os.listdir(d)] on a directory. *)
Definition path_exists (d : pystr) : PyM bool := gets (fun w => bool_decide (is_Some (w_dirs w !! d))).
Definition listdir (d : pystr) : PyM (list pystr) := fun w =>
  match w_dirs w !! d with
  | Some l => (Ok l, w)
  | None => (Raise (mkExc FileNotFoundError d), w)
  end.

(** [with open(name, "r") as f: json.load(f)]. *)
Definition json_load (name : pystr) : PyM json := fun w =>
  match w_fs w !! name with
  | None => (Raise (mkExc FileNotFoundError
                   (py "[Errno 2] No such file or directory: '" +++ name +++ py "'")), w)
  | Some (FJson j) => (Ok j, w)
  | Some (FBytes _) => (Raise (mkExc ValueError name), w)
  end.

(** [with open(name, "w") as f: json.dump(d, f)]. *)
Definition json_dump (name : pystr) (d : json) : PyM unit :=
  modify (fun w => set_fs (<[name := FJson d]> (w_fs w)) w).

(** [for x in xs: body x]. *)
Fixpoint py_for {A} (xs : list A) (body : A -> PyM unit) : PyM unit :=
  match xs with
  | [] => ret tt
  | x :: xs' => body x ;; py_for xs' body
  end.

(** [d[k]] on the value [json.load] returned. *)
Definition getitem (d : json) (k : pystr) : PyM json :=
  match d with
  | JObj kvs =>
      match obj_lookup k kvs with
      | Some v => ret v
      | None => raise (mkExc KeyError (py "'" +++ k +++ py "'"))
      end
  | _ => raise (mkExc TypeError k)
  end.

(** [d.get(k, default)] on the value [json.load] returned. *)
Definition dict_get (d : json) (k : pystr) (default : json) : PyM json :=
  match d with
  | JObj kvs => ret (from_option id default (obj_lookup k kvs))
  | _ => raise (mkExc AttributeError (py "get"))
  end.

(** [f"{v}"] of a value read from JSON: strings, integers, booleans and
    [None] as Python formats them; lists and objects, whose [repr] is not
    modelled, as a fixed placeholder. *)
Definition py_fmt (v : json) : pystr :=
  match v with
  | JStr s => s
  | JNum z => if decide (z < 0)%Z then py "-" +++ py_int (Z.to_nat (- z)) else py_int (Z.to_nat z)
  | JNull => py "None"
  | JBool b => if b then py "True" else py "False"
  | _ => py "<repr>"
  end.

(** [for x in v] on a JSON value: lists give their items, strings their
    characters and objects their keys; other values are not iterable. *)
Definition json_iter (v : json) : PyM (list json) :=
  match v with
  | JArr l => ret l
  | JStr s => ret (map (fun c => JStr [c]) s)
  | JObj kvs => ret (map (fun kv => JStr kv.1) kvs)
  | _ => raise (mkExc TypeError [])
  end.

End Ops.

(** ** Monad laws and the lemmas the components share *)

Section Laws.
Context {R : Type}.
Local Abbreviation PyM := (PyM R).

Lemma bind_ret_l {A B} (a : A) (k : A -> PyM B) w : bind (ret a) k w = k a w.
Proof. done. Qed.

Lemma bind_ret_r {A} (m : PyM A) w : bind m ret w = m w.
Proof. unfold bind, ret. by destruct (m w) as [[]]. Qed.

Lemma bind_assoc {A B C} (m : PyM A) (k : A -> PyM B) (h : B -> PyM C) w :
  bind (bind m k) h w = bind m (fun a => bind (k a) h) w.
Proof. unfold bind. by destruct (m w) as [[]]. Qed.

Lemma bind_ext {A B} (m : PyM A) (k1 k2 : A -> PyM B) w :
  (forall a w', k1 a w' = k2 a w') -> bind m k1 w = bind m k2 w.
Proof. intros H. unfold bind. destruct (m w) as [[] w']; auto. Qed.

Lemma py_for_app {A} (xs ys : list A) (body : A -> PyM unit) w :
  py_for (xs ++ ys) body w = (py_for xs body ;; py_for ys body) w.
Proof.
  revert w. induction xs as [|x xs IH]; intros w; simpl; [done|].
  rewrite bind_assoc. apply bind_ext. intros _ w'. apply IH.
Qed.

Lemma bind_print s {B} (k : unit -> PyM B) w :
  bind (print s) k w = k tt (set_out (w_out w ++ [s]) w).
Proof. done. Qed.

Lemma bind_ok {A B} (m : PyM A) (k : A -> PyM B) w a w' :
  m w = (Ok a, w') -> bind m k w = k a w'.
Proof. intros E. unfold bind. by rewrite E. Qed.

(** [for s in l: print(s)]. *)
Lemma py_for_print (l : list pystr) (w : World R) :
  py_for l print w = (Ok tt, set_out (w_out w ++ l) w).
Proof.
  revert w. induction l as [|s l IH]; intros w; simpl.
  - rewrite app_nil_r. by destruct w.
  - unfold bind at 1. simpl. rewrite IH. simpl. by rewrite <- app_assoc.
Qed.

End Laws.

(** ** Updates of the world *)

Lemma set_out_set_out {R} o1 o2 (w : World R) : set_out o2 (set_out o1 w) = set_out o2 w.
Proof. done. Qed.

Lemma w_out_set_out {R} o (w : World R) : w_out (set_out o w) = o.
Proof. done. Qed.

Lemma w_remote_set_out {R} o (w : World R) : w_remote (set_out o w) = w_remote w.
Proof. done. Qed.

Lemma w_fs_set_out {R} o (w : World R) : w_fs (set_out o w) = w_fs w.
Proof. done. Qed.

Lemma set_out_id {R} (w : World R) : set_out (w_out w) w = w.
Proof. by destruct w. Qed.

(** Closes an equation between two worlds that differ in how their
    console output was appended. *)
Ltac world_eq := rewrite <- ?app_assoc; rewrite ?app_nil_r; reflexivity.

(** After a step that only sets the library's key, the rest of a run
    reads the same files, service and console as before it. *)
Ltac configured w1 :=
  match goal with
  | |- context [set_genai_key ?k ?w] =>
      set (w1 := set_genai_key k w);
      change (w_out w) with (w_out w1) in *; change (w_remote w) with (w_remote w1) in *;
      change (w_fs w) with (w_fs w1) in *; change (w_uuid w) with (w_uuid w1) in *;
      change (w_uuids w) with (w_uuids w1) in *; change (w_dirs w) with (w_dirs w1) in *;
      clearbody w1
  end.

Create HintDb pym.
#[export] Hint Unfold bind ret raise lift modify gets print sleep : pym.

(** ** Exit discipline

    [exits_with P m]: whenever [m] ends by [sys.exit(c)], the code [c]
    satisfies [P]; [no_raise m]: no exception escapes [m].  The lemmas
    below are compositional, and the hint database [pyexit] proves
    [exits_with] of a composite handler from those of its parts. *)

Section Exits.
Context {R : Type}.
Local Abbreviation PyM := (PyM R).

Definition exits_with (P : N -> Prop) {A} (m : PyM A) : Prop :=
  forall w, match fst (m w) with Exit c => P c | _ => True end.

Definition no_raise {A} (m : PyM A) : Prop :=
  forall w, match fst (m w) with Raise _ => False | _ => True end.

Lemma exits_ret P {A} (a : A) : exits_with P (ret a).
Proof. done. Qed.

Lemma exits_raise P {A} e : exits_with P (@raise R A e).
Proof. done. Qed.

Lemma exits_modify P f : exits_with P (@modify R f).
Proof. done. Qed.

Lemma exits_gets P {A} (f : World R -> A) : exits_with P (gets f).
Proof. done. Qed.

Lemma exits_sys_exit (P : N -> Prop) {A} c : P c -> exits_with P (@sys_exit R A c).
Proof. intros Hc w. exact Hc. Qed.

Lemma exits_bind P {A B} (m : PyM A) (k : A -> PyM B) :
  exits_with P m -> (forall a, exits_with P (k a)) -> exits_with P (bind m k).
Proof.
  intros Hm Hk w. specialize (Hm w). unfold bind.
  destruct (m w) as [[a| |c|] w']; simpl in *; auto. apply Hk.
Qed.

Lemma exits_try_except P {A} (m : PyM A) h :
  exits_with P m -> (forall e, exits_with P (h e)) -> exits_with P (try_except m h).
Proof.
  intros Hm Hh w. specialize (Hm w). unfold try_except.
  destruct (m w) as [[a|e|c|] w']; simpl in *; auto. apply Hh.
Qed.

Lemma exits_try_except_class P {A} c (m : PyM A) h :
  exits_with P m -> (forall e, exits_with P (h e)) -> exits_with P (try_except_class c m h).
Proof.
  intros Hm Hh w. specialize (Hm w). unfold try_except_class.
  destruct (m w) as [[a|e|c'|] w']; simpl in *; auto. case_decide; [apply Hh|done].
Qed.

Lemma exits_lift P {A} (r : PyExc + A) : exits_with P (lift r).
Proof. by destruct r. Qed.

Lemma exits_print P s : exits_with P (@print R s).
Proof. done. Qed.

Lemma exits_input P s : exits_with P (@input R s).
Proof. intros w. unfold input. by destruct (w_stdin w). Qed.

Lemma exits_json_load P n : exits_with P (@json_load R n).
Proof. intros w. unfold json_load. by repeat case_match. Qed.

Lemma exits_getitem P d k : exits_with P (@getitem R d k).
Proof. unfold getitem. by repeat case_match. Qed.

Lemma exits_dict_get P d k v : exits_with P (@dict_get R d k v).
Proof. unfold dict_get. by repeat case_match. Qed.

Lemma exits_json_iter P v : exits_with P (@json_iter R v).
Proof. unfold json_iter. by repeat case_match. Qed.

Lemma exits_py_for P {A} (xs : list A) body :
  (forall x, exits_with P (body x)) -> exits_with P (py_for xs body).
Proof.
  intros Hb. induction xs as [|x xs IH]; simpl; [done|]. by apply exits_bind.
Qed.

Lemma no_raise_try_except {A} (m : PyM A) h :
  (forall e, no_raise (h e)) -> no_raise (try_except m h).
Proof.
  intros Hh w. unfold try_except. destruct (m w) as [[a|e|c|] w']; simpl; auto. apply Hh.
Qed.

Lemma no_raise_ret {A} (a : A) : no_raise (@ret R A a).
Proof. done. Qed.

Lemma no_raise_bind {A B} (m : PyM A) (k : A -> PyM B) :
  no_raise m -> (forall a, no_raise (k a)) -> no_raise (bind m k).
Proof.
  intros Hm Hk w. specialize (Hm w). unfold bind.
  destruct (m w) as [[a|e|c|] w']; simpl in *; auto. apply Hk.
Qed.

(** A computation that neither raises nor exits other than by
    [sys.exit(1)] returns, exits with 1, or runs out of fuel. *)
Lemma exit_one_cases (m : PyM unit) w :
  exits_with (fun c => c = 1%N) m -> no_raise m ->
  fst (m w) = Ok tt \/ fst (m w) = Exit 1%N \/ fst (m w) = NoFuel.
Proof.
  intros He Hr. specialize (He w). specialize (Hr w).
  destruct (fst (m w)) as [[]|e|c|]; subst; auto; done.
Qed.

Lemma no_raise_print_exit {A} s c : no_raise (@print R s ;; @sys_exit R A c).
Proof. done. Qed.

End Exits.

Create HintDb pyexit.
#[export] Hint Resolve exits_ret exits_raise exits_modify exits_gets exits_sys_exit
  exits_bind exits_try_except exits_try_except_class exits_lift exits_print
  exits_input exits_json_load exits_getitem exits_dict_get exits_json_iter
  exits_py_for : pyexit.
#[export] Hint Extern 2 (exits_with _ (match ?x with _ => _ end)) => destruct x : pyexit.
#[export] Hint Extern 1 (_ = _) => reflexivity : pyexit.

(** Proves [exits_with P m] by following the structure of [m]. *)
Ltac exits_step :=
  match goal with
  | |- forall _, _ => intros
  | |- exits_with _ (bind _ _) => apply exits_bind
  | |- exits_with _ (try_except _ _) => apply exits_try_except
  | |- exits_with _ (try_except_class _ _ _) => apply exits_try_except_class
  | |- exits_with _ (match ?x with _ => _ end) => destruct x
  | |- _ => solve [eauto with pyexit]
  end.
Ltac exits_solve := repeat exits_step.
