(* ===== verification/Genai.v ===== *)
(** * Genai: the remote Gemini service as an interface

    The sources call the [google.generativeai] client, which this
    development does not model: it is an opaque service.  What the
    scripts rely on is stated here as the class [Genai] (the calls, each
    of which may raise) and the class [GenaiLaws] (that an uploaded file
    can be fetched back by its name, and that uploads keep the files
    already there).  Clients of the service (the store builder and loader,
    the chat turn) are proved against these classes; [SimGenai] is one
    implementation, a finite map of files, which discharges the laws and
    lets the scenarios of the spec be evaluated.

    The data the calls return are the parts of the client's objects that
    the sources read: a file's [name], a response's [text] and the
    grounding attributions of its first candidate. *)

From stdpp Require Import base list gmap strings.
From S2P Require Import Prelude Effects.
#[local] Set Warnings "-clear-no-such-hyp".

(** ** The data of the service *)

(** A file object: [upload_file] and [get_file] return it; the sources
    read its [.name] ("files/..."). *)
Record File := mkFile { file_name : pystr; file_path : pystr }.

(** A grounding attribution: [attr.title] and [attr.uri]; [None] stands
    for an attribute that is missing or [None]. *)
Record Attribution := mkAttr { attr_title : option pystr; attr_uri : option pystr }.

(** A candidate; [cand_grounding] is [None] when it has no attribute
    [grounding_attributions]. *)
Record Candidate := mkCand { cand_grounding : option (list Attribution) }.

(** A response: [response.text] is a property that may raise (the client
    raises when the candidate has no text part); [resp_candidates] is
    [None] when the attribute is missing. *)
Record Response := mkResp {
  resp_text : PyExc + pystr;
  resp_candidates : option (list Candidate)
}.

(** The parts of [generate_content([prompt] + files)]. *)
Inductive Part := PText (s : pystr) | PFile (f : File).

(** A [GenerativeModel] object; the sources read its [.model_name]. *)
Record Model := mkModel { model_name : pystr }.

(** An entry of [genai.list_models()]. *)
Record ModelInfo := mkModelInfo {
  mi_name : pystr;
  mi_methods : list pystr;
  mi_description : option pystr   (* [None]: no [description] attribute; the
                                     library's entries carry a string, so a
                                     present [None] value is not represented *)
}.

(** ['generateContent' in m.supported_generation_methods]. *)
Definition can_generate (m : ModelInfo) : bool :=
  bool_decide (py "generateContent" ∈ mi_methods m).

(** ** The interface *)

Class Genai (R : Type) := {
  (** [genai.upload_file(path)]: a new file, or an error. *)
  upload_file : pystr -> R -> PyExc + (File * R);
  (** [genai.get_file(name)]. *)
  get_file : pystr -> R -> PyExc + File;
  (** [genai.GenerativeModel(name)]. *)
  generative_model : pystr -> R -> PyExc + Model;
  (** The read of [model.model_name]. *)
  probe_model_name : Model -> R -> PyExc + pystr;
  (** [model.generate_content(parts)]. *)
  generate_content : Model -> list Part -> R -> PyExc + Response;
  (** [genai.list_models()]. *)
  list_models : R -> PyExc + list ModelInfo
}.

(** What a reliable service promises: a file it accepted can be fetched
    by the name it gave, and a later upload does not lose it. *)
Class GenaiLaws (R : Type) `{Genai R} := {
  upload_get p r f r' :
    upload_file p r = inr (f, r') -> get_file (file_name f) r' = inr f;
  upload_keeps p r f r' n g :
    upload_file p r = inr (f, r') -> get_file n r = inr g -> get_file n r' = inr g
}.

(** ** The calls as effects of the Python monad *)

Section Calls.
Context {R : Type} `{Genai R}.

(** [genai.configure(api_key=k)]: the module keeps the key for every
    later call of the process; the service's answers do not depend on it
    (a valid key is assumed). *)
Definition configure (api_key : pystr) : PyM R unit := modify (set_genai_key (Some api_key)).

Definition call_upload_file (path : pystr) : PyM R File := fun w =>
  match upload_file path (w_remote w) with
  | inl e => (Raise e, w)
  | inr (f, r') => (Ok f, set_remote r' w)
  end.

Definition call_get_file (name : pystr) : PyM R File := fun w =>
  (match get_file name (w_remote w) with inl e => Raise e | inr f => Ok f end, w).

(** [genai.get_file(name)] on a value read from JSON: the client calls
    [name.startswith(...)], which raises [AttributeError] on a non-string. *)
Definition call_get_file_json (v : json) : PyM R File :=
  match v with
  | JStr s => call_get_file s
  | _ => raise (mkExc AttributeError [])
  end.

Definition call_generative_model (name : pystr) : PyM R Model := fun w =>
  (match generative_model name (w_remote w) with inl e => Raise e | inr m => Ok m end, w).

Definition call_probe_model_name (m : Model) : PyM R pystr := fun w =>
  (match probe_model_name m (w_remote w) with inl e => Raise e | inr n => Ok n end, w).

Definition call_generate_content (m : Model) (parts : list Part) : PyM R Response := fun w =>
  (match generate_content m parts (w_remote w) with inl e => Raise e | inr r => Ok r end, w).

Definition call_list_models : PyM R (list ModelInfo) := fun w =>
  (match list_models (w_remote w) with inl e => Raise e | inr l => Ok l end, w).

(** No call of the service ends the program. *)
Lemma exits_read P {A} (f : R -> PyExc + A) :
  exits_with P (fun w : World R => (match f (w_remote w) with inl e => Raise e | inr a => Ok a end, w)).
Proof. intros w. simpl. by destruct (f _). Qed.

Lemma exits_calls (P : N -> Prop) :
  (forall p, exits_with P (call_upload_file p)) /\
  (forall n, exits_with P (call_get_file n)) /\
  (forall v, exits_with P (call_get_file_json v)) /\
  (forall n, exits_with P (call_generative_model n)) /\
  (forall m, exits_with P (call_probe_model_name m)) /\
  (forall m ps, exits_with P (call_generate_content m ps)) /\
  exits_with P call_list_models.
Proof.
  split_and!; intros; try apply exits_read.
  - intros w. unfold call_upload_file. by destruct (upload_file _ _) as [|[]].
  - destruct v; try apply exits_raise. apply exits_read.
Qed.

End Calls.

#[export] Hint Extern 1 (exits_with _ (configure _)) => apply exits_modify : pyexit.
#[export] Hint Extern 1 (exits_with _ (call_upload_file _)) => apply exits_calls : pyexit.
#[export] Hint Extern 1 (exits_with _ (call_get_file _)) => apply exits_calls : pyexit.
#[export] Hint Extern 1 (exits_with _ (call_get_file_json _)) => apply exits_calls : pyexit.
#[export] Hint Extern 1 (exits_with _ (call_generative_model _)) => apply exits_calls : pyexit.
#[export] Hint Extern 1 (exits_with _ (call_probe_model_name _)) => apply exits_calls : pyexit.
#[export] Hint Extern 1 (exits_with _ (call_generate_content _ _)) => apply exits_calls : pyexit.
#[export] Hint Extern 1 (exits_with _ call_list_models) => apply exits_calls : pyexit.

(** ** A simulated service *)

Module SimGenai.

(** The service keeps its files by name; uploads of the paths in
    [rejects] fail; [models] are the model names it serves and [answer]
    is how it answers a prompt. *)
Record state := mkState {
  files : gmap pystr File;
  rejects : list pystr;
  models : list pystr;
  answer : list Part -> PyExc + Response;
  catalogue : list ModelInfo
}.

Definition with_files (m : gmap pystr File) (s : state) : state :=
  mkState m (rejects s) (models s) (answer s) (catalogue s).

Definition upload (p : pystr) (s : state) : PyExc + (File * state) :=
  if decide (p ∈ rejects s) then inl (mkExc APIError p)
  else let n := fresh (dom (files s)) in
       let f := mkFile n p in
       inr (f, with_files (<[n := f]> (files s)) s).

Definition get (n : pystr) (s : state) : PyExc + File :=
  match files s !! n with
  | Some f => inr f
  | None => inl (mkExc APIError n)
  end.

#[global] Instance sim_genai : Genai state := {
  upload_file := upload;
  get_file := get;
  generative_model n s :=
    if decide (n ∈ models s) then inr (mkModel n) else inl (mkExc APIError n);
  probe_model_name m _ := inr (model_name m);
  generate_content _ parts s := answer s parts;
  list_models s := inr (catalogue s)
}.

(** The name an upload returns is the key it is stored under. *)
Lemma upload_spec p s f s' :
  upload p s = inr (f, s') ->
  file_path f = p /\ files s !! file_name f = None /\
  files s' = <[file_name f := f]> (files s).
Proof.
  unfold upload. case_decide; [done|]. intros [= <- <-]. simpl.
  split_and!; [done| |done].
  apply not_elem_of_dom. apply is_fresh.
Qed.

#[global] Instance sim_genai_laws : GenaiLaws state.
Proof.
  split.
  - intros p r f r' Hup. apply upload_spec in Hup as (_ & _ & Hfs).
    change (get (file_name f) r' = inr f). unfold get.
    rewrite Hfs, lookup_insert_eq. done.
  - intros p r f r' n g Hup Hg. apply upload_spec in Hup as (_ & Hnone & Hfs).
    change (get n r = inr g) in Hg. change (get n r' = inr g).
    unfold get in *. rewrite Hfs.
    destruct (files r !! n) eqn:E; [|done].
    assert (file_name f <> n) by (intros Heq; subst n; congruence).
    by rewrite lookup_insert_ne, E.
Qed.

End SimGenai.
