(* ===== verification/Citations.v ===== *)
(** * Citations: the source list appended to an answer

    [extract_citations] of src/chatbot.py (lines 31-51) and the inline copy
    of the same loop in [chat_with_documents] of src/app.py (lines
    112-124) read the grounding attributions of the first candidate of a
    response, take each one's title, or else the last path segment of its
    URI, drop duplicates with [set(...)] and format the result.

    [set] gives no order: the order in which [list(set(xs))] lists the
    distinct elements of [xs] depends on string hashing, which Python
    randomises per process.  It is the class [PySet]; every theorem below
    holds for each of its instances, and the two programs, which run in
    different processes, are compared under two independent instances.
    The app's loop is translated on its own ([app_collect_citations],
    [app_citation_labels]); that it agrees with chatbot.py's is proved.
    The theorems characterise a label in both directions, the empty
    text, the sources line, and show that a document cited by title and
    by file URI is listed twice. *)

From stdpp Require Import base list gmap strings.
From S2P Require Import Prelude Effects Genai.
#[local] Set Warnings "-clear-no-such-hyp".

(** ** [list(set(xs))] on strings *)

Class PySet := {
  set_list : list pystr -> list pystr;
  set_list_NoDup xs : NoDup (set_list xs);
  set_list_elem xs x : x ∈ set_list xs <-> x ∈ xs
}.

(** One order a run may exhibit: first occurrences kept. *)
#[export] Program Instance first_seen : PySet := {| set_list := remove_dups |}.
Next Obligation. intros. apply NoDup_remove_dups. Qed.
Next Obligation. intros. apply elem_of_remove_dups. Qed.

(** ** The extraction *)

(** [hasattr(attr, f) and attr.f]: the attribute when present and non-empty. *)
Definition truthy_attr (o : option pystr) : option pystr :=
  match o with
  | Some s => if truthy s then Some s else None
  | None => None
  end.

(** One attribution's label: the title, or else [attr.uri.split('/')[-1]]. *)
Definition attr_label (a : Attribution) : option pystr :=
  match truthy_attr (attr_title a) with
  | Some t => Some t
  | None =>
      match truthy_attr (attr_uri a) with
      | Some u => Some (py_last [] (py_split SLASH u))
      | None => None
      end
  end.

(** The loop [for attr in candidate.grounding_attributions: ...]
    appending to [citations]. *)
Fixpoint collect_citations (attrs : list Attribution) : list pystr :=
  match attrs with
  | [] => []
  | a :: rest =>
      match attr_label a with
      | Some l => l :: collect_citations rest
      | None => collect_citations rest
      end
  end.

(** The attributions the code reads: those of [response.candidates[0]],
    when the response has candidates and that one has the attribute. *)
Definition first_attrs (r : Response) : list Attribution :=
  match resp_candidates r with
  | Some (c :: _) =>
      match cand_grounding c with
      | Some attrs => attrs
      | None => []
      end
  | _ => []
  end.

(** The list [citations] after the loop. *)
Definition citation_labels (r : Response) : list pystr :=
  collect_citations (first_attrs r).

Definition comma_sep : pystr := py ", ".

(** "\n📚 Sources: " *)
Definition cli_sources_header : pystr := [NL; BOOKS] +++ py " Sources: ".

(** The inline copy in [chat_with_documents] of src/app.py: the loop of
    lines 116-122, written there with the branches inline. *)
Fixpoint app_collect_citations (attrs : list Attribution) : list pystr :=
  match attrs with
  | [] => []
  | attr :: rest =>
      match truthy_attr (attr_title attr) with
      | Some title => title :: app_collect_citations rest
      | None =>
          match truthy_attr (attr_uri attr) with
          | Some uri => py_last [] (py_split SLASH uri) :: app_collect_citations rest
          | None => app_collect_citations rest
          end
      end
  end.

(** Lines 112-122 of src/app.py: the list [citations]. *)
Definition app_citation_labels (response : Response) : list pystr :=
  match resp_candidates response with
  | Some (candidate :: _) =>
      match cand_grounding candidate with
      | Some attrs => app_collect_citations attrs
      | None => []
      end
  | _ => []
  end.

(** "\n\n📚 **Sources:** " *)
Definition app_sources_header : pystr := [NL; NL; BOOKS] +++ py " **Sources:** ".

Section Extract.
Context `{PySet}.

(** [extract_citations(response)] of src/chatbot.py. *)
Definition extract_citations (r : Response) : pystr :=
  let citations := citation_labels r in
  if truthy citations
  then cli_sources_header +++ py_join comma_sep (set_list citations)
  else [].

(** [citation_text] of [chat_with_documents] in src/app.py (line 124);
    the instance of [PySet] is the order of the web app's process. *)
Definition app_citation_text (r : Response) : pystr :=
  let citations := app_citation_labels r in
  if truthy citations
  then app_sources_header +++ py_join comma_sep (set_list citations)
  else [].

End Extract.

(** ** Lemmas *)

Lemma truthy_attr_Some o s : truthy_attr o = Some s <-> o = Some s /\ s <> [].
Proof.
  destruct o as [t|]; simpl; [|naive_solver].
  destruct (truthy t) eqn:E; [apply truthy_true in E|apply truthy_false in E];
    naive_solver.
Qed.

Lemma truthy_attr_None o : truthy_attr o = None <-> o = None \/ o = Some [].
Proof.
  destruct o as [t|]; simpl; [|naive_solver].
  destruct (truthy t) eqn:E; [apply truthy_true in E|apply truthy_false in E];
    naive_solver.
Qed.

Lemma elem_of_collect_citations attrs x :
  x ∈ collect_citations attrs <-> exists a, a ∈ attrs /\ attr_label a = Some x.
Proof.
  induction attrs as [|a rest IH]; simpl.
  - split; [intros Hx; by apply not_elem_of_nil in Hx|]. intros (a & Ha & _).
    by apply not_elem_of_nil in Ha.
  - destruct (attr_label a) as [l|] eqn:E; rewrite ?elem_of_cons, IH;
      setoid_rewrite elem_of_cons; naive_solver.
Qed.

Lemma collect_citations_nil attrs :
  collect_citations attrs = [] <-> forall a, a ∈ attrs -> attr_label a = None.
Proof.
  split.
  - intros Hn a Ha. destruct (attr_label a) as [l|] eqn:E; [|done].
    assert (Hl : l ∈ collect_citations attrs)
      by (apply elem_of_collect_citations; eauto).
    rewrite Hn in Hl. by apply not_elem_of_nil in Hl.
  - intros Hall. destruct (collect_citations attrs) as [|l ls] eqn:E; [done|].
    assert (Hl : l ∈ collect_citations attrs) by (rewrite E; left).
    apply elem_of_collect_citations in Hl as (a & Ha & Hla).
    rewrite Hall in Hla; done.
Qed.

#[export] Hint Resolve set_list_NoDup : py.

Lemma extract_citations_cases `{PySet} r :
  (citation_labels r = [] /\ extract_citations r = []) \/
  (citation_labels r <> [] /\
   extract_citations r = cli_sources_header +++ py_join comma_sep (set_list (citation_labels r))).
Proof.
  unfold extract_citations.
  destruct (truthy (citation_labels r)) eqn:E;
    [apply truthy_true in E|apply truthy_false in E]; naive_solver.
Qed.

(** The inline loop of app.py collects the labels [attr_label] gives. *)
Lemma app_collect_citations_eq attrs : app_collect_citations attrs = collect_citations attrs.
Proof.
  induction attrs as [|a rest IH]; [done|]. simpl. unfold attr_label.
  destruct (truthy_attr (attr_title a)); [by f_equal|].
  destruct (truthy_attr (attr_uri a)); [by f_equal|done].
Qed.

Lemma app_citation_labels_eq r : app_citation_labels r = citation_labels r.
Proof.
  unfold app_citation_labels, citation_labels, first_attrs.
  destruct (resp_candidates r) as [[|c cs]|]; [done| |done].
  destruct (cand_grounding c); [apply app_collect_citations_eq|done].
Qed.

Lemma app_citation_text_cases `{PySet} r :
  (citation_labels r = [] /\ app_citation_text r = []) \/
  (citation_labels r <> [] /\
   app_citation_text r = app_sources_header +++ py_join comma_sep (set_list (citation_labels r))).
Proof.
  unfold app_citation_text. rewrite app_citation_labels_eq.
  destruct (truthy (citation_labels r)) eqn:E;
    [apply truthy_true in E|apply truthy_false in E]; naive_solver.
Qed.

(** Two runs list the same labels, each once, in their own orders. *)
Lemma set_list_perm (S1 S2 : PySet) xs : @set_list S1 xs ≡ₚ @set_list S2 xs.
Proof.
  apply NoDup_Permutation; [apply set_list_NoDup..|].
  intros x. by rewrite !set_list_elem.
Qed.

(** ** Properties *)

(** C1. The label of an attribution, characterised: it is the
    attribution's title when that is non-empty; otherwise, when the URI
    is non-empty, it is the URI's trailing path segment, the one string
    that holds no '/' and is either the whole URI or what follows its
    last '/'; and there is no label exactly when neither the title nor
    the URI is a non-empty string. *)
Theorem attr_label_title_or_segment a x :
  (attr_label a = Some x <->
     (attr_title a = Some x /\ x <> []) \/
     (truthy_attr (attr_title a) = None /\
      exists u, attr_uri a = Some u /\ u <> [] /\ (SLASH ∉ x) /\
                (u = x \/ exists pre, u = pre +++ [SLASH] +++ x))) /\
  (attr_label a = None <-> truthy_attr (attr_title a) = None /\ truthy_attr (attr_uri a) = None).
Proof.
  unfold attr_label. destruct (truthy_attr (attr_title a)) as [t|] eqn:Et.
  - apply truthy_attr_Some in Et as [Et Ht]. rewrite Et. naive_solver.
  - destruct (truthy_attr (attr_uri a)) as [u|] eqn:Eu.
    + apply truthy_attr_Some in Eu as [Eu Hu]. rewrite Eu.
      apply truthy_attr_None in Et. pose proof (py_last_split SLASH u) as Hl.
      split; [|naive_solver]. split.
      * intros [= <-]. right. naive_solver.
      * intros [[Ha Hx]|(_ & u' & [= <-] & _ & Hx & Hs)]; [naive_solver|].
        f_equal. by apply py_last_split_unique.
    + apply truthy_attr_None in Et, Eu. naive_solver.
Qed.

(** C2. The appended text is empty exactly when no attribution of the
    first candidate yields a label: in particular when the response has
    no candidates or no grounding data. *)
Theorem extract_citations_empty_iff `{PySet} r :
  extract_citations r = [] <-> forall a, a ∈ first_attrs r -> attr_label a = None.
Proof.
  rewrite <- collect_citations_nil. fold (citation_labels r).
  destruct (extract_citations_cases r) as [(Hl & He)|(Hl & He)];
    rewrite He; [done|]. split; [|done]. intros Hn. discriminate Hn.
Qed.

(** C3. When some attribution yields a label, the text is the "Sources"
    header followed by the comma-separated labels, each label once, and
    the labels listed are exactly those the attributions yield. *)
Theorem extract_citations_sources `{PySet} r :
  citation_labels r <> [] ->
  exists ls, extract_citations r = cli_sources_header +++ py_join comma_sep ls /\
             NoDup ls /\
             (forall x, x ∈ ls <-> exists a, a ∈ first_attrs r /\ attr_label a = Some x).
Proof.
  intros Hne. destruct (extract_citations_cases r) as [(Hl & _)|(_ & He)]; [done|].
  exists (set_list (citation_labels r)). split_and!; [done|apply set_list_NoDup|].
  intros x. rewrite set_list_elem. apply elem_of_collect_citations.
Qed.

(** C4. The web app's inline copy of the extraction (app.py lines
    112-124) agrees with chatbot.py's [extract_citations], each in the
    [set] order of its own process: both texts are empty, or both list,
    after their own header ("\n📚 Sources: " and "\n\n📚 **Sources:** "),
    the same non-empty collection of labels, each once, up to order. *)
Theorem app_cli_citations_agree (S_cli S_app : PySet) r :
  (@extract_citations S_cli r = [] /\ @app_citation_text S_app r = []) \/
  exists b1 b2, @extract_citations S_cli r = cli_sources_header +++ py_join comma_sep b1 /\
                @app_citation_text S_app r = app_sources_header +++ py_join comma_sep b2 /\
                b1 <> [] /\ b1 ≡ₚ b2 /\ NoDup b1.
Proof.
  destruct (@extract_citations_cases S_cli r) as [(Hl & He)|(Hl & He)];
    destruct (@app_citation_text_cases S_app r) as [(Hl' & Ha)|(Hl' & Ha)]; try done.
  - by left.
  - right. exists (@set_list S_cli (citation_labels r)), (@set_list S_app (citation_labels r)).
    split_and!; [done|done| |apply set_list_perm|apply set_list_NoDup].
    destruct (citation_labels r) as [|l ls] eqn:E; [done|].
    intros Hn. assert (Hin : l ∈ @set_list S_cli (l :: ls)) by (apply set_list_elem; left).
    rewrite Hn in Hin. by apply not_elem_of_nil in Hin.
Qed.

(** The response of the spec's example: attributions
    [{title:"Paper A"}, {uri:"https://x/y/Paper A.pdf"}, {title:"Paper A"}]. *)
Definition paper_a_response : Response :=
  mkResp (inr (py "An answer."))
    (Some [mkCand (Some [mkAttr (Some (py "Paper A")) None;
                         mkAttr None (Some (py "https://x/y/Paper A.pdf"));
                         mkAttr (Some (py "Paper A")) None])]).

(** C5. A document the service cites once by its title [t] and once by
    the URI of its file ".../t.pdf" is listed twice: [set] removes only
    equal strings, and the URI label keeps the file's extension, so the
    sources line holds both [t] and "t.pdf" as two distinct entries
    (the spec says each source is listed once). *)
Theorem title_and_file_listed_apart `{PySet} r a1 a2 t pre :
  a1 ∈ first_attrs r -> attr_title a1 = Some t -> t <> [] ->
  a2 ∈ first_attrs r -> truthy_attr (attr_title a2) = None ->
  attr_uri a2 = Some (pre +++ [SLASH] +++ t +++ py ".pdf") -> SLASH ∉ t ->
  exists ls, extract_citations r = cli_sources_header +++ py_join comma_sep ls /\
             NoDup ls /\ t ∈ ls /\ t +++ py ".pdf" ∈ ls /\ t <> t +++ py ".pdf".
Proof.
  intros H1 Ht1 Ht H2 Ht2 Hu2 Hs.
  assert (Hl1 : attr_label a1 = Some t)
    by (unfold attr_label; by rewrite (proj2 (truthy_attr_Some _ t) (conj Ht1 Ht))).
  assert (Hns : SLASH ∉ t +++ py ".pdf").
  { rewrite elem_of_app. intros [Hin|Hin]; [done|]. vm_compute in Hin. set_solver. }
  assert (Hl2 : attr_label a2 = Some (t +++ py ".pdf")).
  { unfold attr_label. rewrite Ht2, Hu2. cbn [truthy_attr].
    destruct (truthy (pre +++ [SLASH] +++ t +++ py ".pdf")) eqn:E.
    - f_equal. apply py_last_split_unique; [done|]. right. by exists pre.
    - apply truthy_false in E. by destruct pre. }
  assert (Hin : forall x, x ∈ citation_labels r <-> exists a, a ∈ first_attrs r /\ attr_label a = Some x)
    by (intros; apply elem_of_collect_citations).
  destruct (extract_citations_cases r) as [(Hn & _)|(_ & He)].
  { assert (Hc : t ∈ citation_labels r) by (apply Hin; eauto). rewrite Hn in Hc.
    by apply not_elem_of_nil in Hc. }
  exists (set_list (citation_labels r)). split_and!; [done|apply set_list_NoDup| | |].
  - apply set_list_elem, Hin. eauto.
  - apply set_list_elem, Hin. eauto.
  - intros Heq. apply (f_equal length) in Heq. rewrite length_app in Heq. simpl in Heq. lia.
Qed.

(** On the spec's own example the loop collects "Paper A" twice and
    "Paper A.pdf" once, and the line lists "Paper A" and "Paper A.pdf"
    in an order that depends on [set]. *)
Example paper_a_example `{PySet} :
  citation_labels paper_a_response = [py "Paper A"; py "Paper A.pdf"; py "Paper A"] /\
  (extract_citations paper_a_response = cli_sources_header +++ py "Paper A, Paper A.pdf" \/
   extract_citations paper_a_response = cli_sources_header +++ py "Paper A.pdf, Paper A").
Proof.
  assert (Hl : citation_labels paper_a_response = [py "Paper A"; py "Paper A.pdf"; py "Paper A"])
    by (vm_compute; reflexivity).
  assert (Hs : set_list (citation_labels paper_a_response) = [py "Paper A"; py "Paper A.pdf"] \/
               set_list (citation_labels paper_a_response) = [py "Paper A.pdf"; py "Paper A"]).
  { apply NoDup_same_elems_2; [apply set_list_NoDup|vm_compute; congruence|].
    intros z. rewrite set_list_elem, Hl. set_solver. }
  unfold extract_citations. rewrite Hl in Hs |- *. split; [done|].
  destruct Hs as [Hs|Hs]; rewrite Hs; [left|right]; vm_compute; reflexivity.
Qed.

(** ** Witnesses *)

(** A URI-only attribution: the characterisation gives its label. *)
Lemma attr_label_title_or_segment_witness :
  attr_label (mkAttr None (Some (py "https://x/y/Paper A.pdf"))) = Some (py "Paper A.pdf").
Proof.
  apply (proj2 (proj1 (attr_label_title_or_segment _ _))). right. split; [reflexivity|].
  exists (py "https://x/y/Paper A.pdf"). split_and!; [reflexivity|discriminate|vm_compute; set_solver|].
  right. exists (py "https://x/y"). reflexivity.
Defined.


Lemma extract_citations_sources_witness :
  citation_labels paper_a_response <> [] /\
  exists ls, extract_citations paper_a_response = cli_sources_header +++ py_join comma_sep ls /\
             NoDup ls /\
             (forall x, x ∈ ls <-> exists a, a ∈ first_attrs paper_a_response /\
                                             attr_label a = Some x).
Proof.
  assert (Hne : citation_labels paper_a_response <> []) by (vm_compute; congruence).
  split; [exact Hne|]. apply extract_citations_sources. exact Hne.
Defined.

Lemma title_and_file_listed_apart_witness :
  mkAttr (Some (py "Paper A")) None ∈ first_attrs paper_a_response /\
  mkAttr None (Some (py "https://x/y/Paper A.pdf")) ∈ first_attrs paper_a_response /\
  exists ls, @extract_citations first_seen paper_a_response = cli_sources_header +++ py_join comma_sep ls /\
             NoDup ls /\ py "Paper A" ∈ ls /\ py "Paper A" +++ py ".pdf" ∈ ls /\
             py "Paper A" <> py "Paper A" +++ py ".pdf".
Proof.
  assert (H1 : mkAttr (Some (py "Paper A")) None ∈ first_attrs paper_a_response)
    by (vm_compute; left).
  assert (H2 : mkAttr None (Some (py "https://x/y/Paper A.pdf")) ∈ first_attrs paper_a_response)
    by (vm_compute; right; left).
  split_and!; [exact H1|exact H2|].
  apply (@title_and_file_listed_apart first_seen paper_a_response
           (mkAttr (Some (py "Paper A")) None) (mkAttr None (Some (py "https://x/y/Paper A.pdf")))
           (py "Paper A") (py "https://x/y")
           H1 eq_refl); [discriminate|exact H2|reflexivity|reflexivity|vm_compute; set_solver].
Defined.
