(* ===== verification/Prompt.v ===== *)
(** * Prompt: the prompt sent with each question

    Both chat front ends build the model prompt from a fixed system
    instruction, a window of recent history and the new question:
    - src/chatbot.py (lines 140-145) keeps history as a flat list of
      lines "User: ..." and "Assistant: ..." and takes its last 4 lines;
    - src/app.py [chat_with_documents] (lines 101-107) keeps a list of
      {question, answer} turns and takes its last 3 turns.

    [assemble] is the contract of spec section 4.4, written over turns.
    The theorems show that each front end implements [assemble] on a
    window of the last 3 turns (app.py) or the last 2 turns (chatbot.py,
    whose 4 lines are 2 turns), that both prompts have a length bound
    that does not depend on the length of the conversation, and that the
    chatbot's list of lines reads back as its turns ([turns_of_lines]),
    while the app's rendered string does not determine them. *)

From stdpp Require Import base list gmap strings.
From S2P Require Import Prelude.
#[local] Set Warnings "-clear-no-such-hyp".

Definition system_prompt : pystr :=
  py "You are a helpful Q&A assistant for research papers. Answer questions based on the provided documents. Include citations to specific sources when possible.".

(** A turn of app.py's [chat_history]: [{"question": ..., "answer": ...}]. *)
Record Turn := mkTurn { question : pystr; answer : pystr }.

Definition user_line (q : pystr) : pystr := py "User: " +++ q.
Definition assistant_line (a : pystr) : pystr := py "Assistant: " +++ a.

(** The prompt tails shared by both front ends. *)
Definition with_history (context q : pystr) : pystr :=
  system_prompt +++ [NL; NL] +++ py "Previous conversation:" +++ [NL] +++ context +++
  [NL; NL] +++ py "Current question: " +++ q.

Definition without_history (q : pystr) : pystr :=
  system_prompt +++ [NL; NL] +++ py "Question: " +++ q.

(** ** The abstract contract (spec 4.4) *)

Definition turn_lines (t : Turn) : list pystr := [user_line (question t); assistant_line (answer t)].

Definition assemble (sys : pystr) (window : list Turn) (q : pystr) : pystr :=
  match window with
  | [] => sys +++ [NL; NL] +++ py "Question: " +++ q
  | _ => sys +++ [NL; NL] +++ py "Previous conversation:" +++ [NL] +++
         py_join [NL] (concat (map turn_lines window)) +++
         [NL; NL] +++ py "Current question: " +++ q
  end.

(** ** src/chatbot.py *)

(** [history] of src/chatbot.py after the turns [ts]: each answered
    turn appends two lines (lines 160-161). *)
Definition history_lines (ts : list Turn) : list pystr := concat (map turn_lines ts).

(** Lines 141-145. *)
Definition chatbot_prompt (history : list pystr) (user_input : pystr) : pystr :=
  if truthy history
  then with_history (py_join [NL] (py_tail 4 history)) user_input
  else without_history user_input.

(** ** src/app.py *)

(** [f"User: {h['question']}\nAssistant: {h['answer']}"]. *)
Definition render_turn (h : Turn) : pystr :=
  user_line (question h) +++ [NL] +++ assistant_line (answer h).

(** Lines 103-107 of [chat_with_documents]. *)
Definition app_prompt (history : list Turn) (q : pystr) : pystr :=
  if truthy history
  then with_history (py_join [NL] (map render_turn (py_tail 3 history))) q
  else without_history q.

(** ** Reading the chatbot's history back *)

(** [s.removeprefix(pre)] when [s] starts with [pre]. *)
Definition strip_prefix (pre s : pystr) : option pystr :=
  if py_startswith pre s then Some (drop (length pre) s) else None.

(** The turns of a history of lines: pairs "User: q", "Assistant: a". *)
Fixpoint turns_of_lines (ls : list pystr) : option (list Turn) :=
  match ls with
  | [] => Some []
  | u :: a :: rest =>
      match strip_prefix (py "User: ") u, strip_prefix (py "Assistant: ") a, turns_of_lines rest with
      | Some q, Some x, Some ts => Some (mkTurn q x :: ts)
      | _, _, _ => None
      end
  | [_] => None
  end.

(** The size of a turn's text. *)
Definition turn_size (t : Turn) : nat := length (question t) + length (answer t).

(** ** Lemmas *)

Lemma strip_prefix_app pre x : strip_prefix pre (pre ++ x) = Some x.
Proof.
  unfold strip_prefix, py_startswith. rewrite bool_decide_true by (by exists x).
  by rewrite drop_app_length.
Qed.

(** The window a front end takes keeps the size bound of the history. *)
Lemma Forall_py_tail {A} (P : A -> Prop) k xs : Forall P xs -> Forall P (py_tail k xs).
Proof.
  destruct (py_tail_suffix k xs) as [pre Hxs]. intros Hall.
  rewrite Hxs in Hall. by apply Forall_app in Hall as [_ ?].
Qed.

(** The prompt with history: the system prompt, 45 characters of
    framing, the context and the question. *)
Lemma length_with_history c q :
  length (with_history c q) = length system_prompt + 45 + length c + length q.
Proof. unfold with_history. rewrite !length_app. simpl. lia. Qed.

Lemma length_without_history q : length (without_history q) <= length system_prompt + 45 + length q.
Proof. unfold without_history. rewrite !length_app. simpl. lia. Qed.

Lemma turn_lines_uniform ts : Forall (fun xs => length xs = 2) (map turn_lines ts).
Proof. apply Forall_map, Forall_forall. done. Qed.

Lemma render_turns ts :
  py_join [NL] (map render_turn ts) = py_join [NL] (history_lines ts).
Proof.
  unfold history_lines. rewrite <- py_join_concat.
  - rewrite map_map. done.
  - apply Forall_map, Forall_forall. done.
Qed.

Lemma length_history_lines ts : length (history_lines ts) = 2 * length ts.
Proof.
  unfold history_lines. rewrite (length_concat_uniform 2); [|apply turn_lines_uniform].
  by rewrite length_map.
Qed.

(** The last [2k] lines of the history are the lines of its last [k] turns. *)
Lemma py_tail_history_lines k ts :
  py_tail (2 * k) (history_lines ts) = history_lines (py_tail k ts).
Proof.
  destruct k as [|k]; [done|]. replace (2 * S k) with (S (S (2 * k))) by lia.
  unfold py_tail. rewrite length_history_lines.
  replace (2 * length ts - S (S (2 * k))) with (2 * (length ts - S k)) by lia.
  unfold history_lines. rewrite drop_concat_uniform by apply turn_lines_uniform.
  by rewrite <- fmap_drop.
Qed.

Lemma history_lines_nil ts : history_lines ts = [] <-> ts = [].
Proof.
  split; [|by intros ->]. intros H. apply (f_equal length) in H.
  rewrite length_history_lines in H. destruct ts; [done|simpl in H; lia].
Qed.

Lemma assemble_nil q : assemble system_prompt [] q = without_history q.
Proof. done. Qed.

Lemma assemble_cons t ts q :
  assemble system_prompt (t :: ts) q = with_history (py_join [NL] (history_lines (t :: ts))) q.
Proof. done. Qed.

(** A window taken with [py_tail] from [h]: what is left before it, and
    its length. *)
Lemma py_tail_split {A} k (h : list A) :
  k <> O -> h = take (length h - k) h ++ py_tail k h /\
            length (py_tail k h) = Nat.min k (length h).
Proof.
  intros Hk. split; [|by apply py_tail_length].
  destruct k; [done|]. symmetry. apply take_drop.
Qed.

(** ** Properties *)

(** C6. The web app's prompt is the contract's prompt for the window of
    the last three turns (all turns when there are fewer): the history
    splits into older turns and that window, oldest first, with each
    turn rendered as a "User:" line then an "Assistant:" line. *)
Theorem app_prompt_window h q :
  exists older window, h = older ++ window /\
    length window = Nat.min 3 (length h) /\
    app_prompt h q = assemble system_prompt window q.
Proof.
  destruct (py_tail_split 3 h) as [Hh Hlen]; [done|].
  exists (take (length h - 3) h), (py_tail 3 h). split_and!; [done|done|].
  unfold app_prompt. destruct (truthy h) eqn:E.
  - apply truthy_true in E. rewrite render_turns.
    destruct (py_tail 3 h) as [|t ts]; [destruct h; simpl in Hlen; [done|lia]|].
    by rewrite assemble_cons.
  - apply truthy_false in E. by subst.
Qed.

(** The chatbot's prompt on the lines of answered turns is the
    contract's prompt on the last two turns. *)
Lemma chatbot_prompt_lines ts q :
  chatbot_prompt (history_lines ts) q = assemble system_prompt (py_tail 2 ts) q.
Proof.
  unfold chatbot_prompt. destruct (truthy (history_lines ts)) eqn:E.
  - apply truthy_true in E.
    replace (py_tail 4 (history_lines ts)) with (history_lines (py_tail 2 ts))
      by (symmetry; apply (py_tail_history_lines 2 ts)).
    destruct (py_tail_split 2 ts) as [_ Hlen]; [done|].
    destruct (py_tail 2 ts) as [|t ts'];
      [destruct ts; [done|simpl in Hlen; lia]|].
    by rewrite assemble_cons.
  - apply truthy_false, history_lines_nil in E. by subst.
Qed.

(** C7. The command-line chatbot's prompt, for the history its loop
    builds from answered turns [ts], is the contract's prompt for the
    window of the last two turns: its "last 4 messages" are two turns,
    not the three to four turns the spec describes. *)
Theorem chatbot_prompt_window ts q :
  exists older window, ts = older ++ window /\
    length window = Nat.min 2 (length ts) /\
    chatbot_prompt (history_lines ts) q = assemble system_prompt window q.
Proof.
  destruct (py_tail_split 2 ts) as [Hts Hlen]; [done|].
  exists (take (length ts - 2) ts), (py_tail 2 ts). split_and!; [done|done|].
  apply chatbot_prompt_lines.
Qed.

(** C8. The rendered history does not determine the turns: an answer
    that contains a line "User: ..." followed by "Assistant: ..." yields
    the same prompt as two turns, so the prompt of a one-turn history can
    hold two "User:"/"Assistant:" pairs. *)
Theorem history_rendering_ambiguous a b c d q :
  app_prompt [mkTurn a (b +++ [NL] +++ user_line c +++ [NL] +++ assistant_line d)] q =
  app_prompt [mkTurn a b; mkTurn c d] q.
Proof.
  unfold app_prompt. simpl. unfold render_turn, user_line, assistant_line. simpl.
  by rewrite <- !app_assoc.
Qed.

(** C13. The command-line chatbot's history loses nothing: the list of
    lines its loop builds from turns [ts] reads back as exactly [ts], so
    (unlike the web app's rendered string, C8) distinct conversations
    never share a history. *)
Theorem history_lines_roundtrip ts : turns_of_lines (history_lines ts) = Some ts.
Proof.
  induction ts as [|[q a] ts IH]; [done|]. cbn [history_lines map concat turn_lines app].
  fold (history_lines ts). unfold user_line, assistant_line. cbn [question answer turns_of_lines].
  by rewrite !strip_prefix_app, IH.
Qed.

(** The rendered window of the last [k] turns of a history of turns of
    size at most [L]. *)
Lemma window_length_bounded k h L :
  k <> O -> Forall (fun t => turn_size t <= L) h ->
  length (py_join [NL] (map render_turn (py_tail k h))) <= k * (L + 19).
Proof.
  intros Hk Hall.
  assert (Hw : Forall (fun x => length x <= L + 18) (map render_turn (py_tail k h))).
  { apply Forall_map. eapply Forall_impl; [apply Forall_py_tail, Hall|].
    intros [a b]. unfold turn_size, render_turn, user_line, assistant_line. cbn.
    rewrite !length_app. simpl. lia. }
  pose proof (py_join_length_le [NL] _ _ Hw) as Hj. rewrite length_map in Hj.
  pose proof (py_tail_length k h Hk) as Hl. simpl in Hj.
  assert (length (py_tail k h) <= k) by lia. nia.
Qed.

(** C39. The prompts are bounded whatever the length of the
    conversation: when each turn's question and answer have at most [L]
    characters together, the web app's prompt has at most the system
    prompt, 45 characters of framing, three rendered turns and the
    question, and the chatbot's at most two. *)
Theorem prompt_length_bounded h q L :
  Forall (fun t => turn_size t <= L) h ->
  length (app_prompt h q) <= length system_prompt + 45 + 3 * (L + 19) + length q /\
  length (chatbot_prompt (history_lines h) q) <= length system_prompt + 45 + 2 * (L + 19) + length q.
Proof.
  intros Hall. split.
  - unfold app_prompt. destruct (truthy h); [|pose proof (length_without_history q); lia].
    rewrite length_with_history. pose proof (window_length_bounded 3 h L ltac:(done) Hall) as Hw. lia.
  - rewrite chatbot_prompt_lines. destruct (py_tail 2 h) as [|t ts] eqn:E.
    + rewrite assemble_nil. pose proof (length_without_history q). lia.
    + rewrite assemble_cons, <- E, length_with_history, <- render_turns.
      pose proof (window_length_bounded 2 h L ltac:(done) Hall) as Hw. lia.
Qed.

Lemma prompt_length_bounded_witness :
  let h := [mkTurn (py "What is X?") (py "X is a method."); mkTurn (py "And Y?") (py "Y too.")] in
  Forall (fun t => turn_size t <= 24) h /\
  length (app_prompt h (py "Z?")) <= length system_prompt + 45 + 3 * (24 + 19) + length (py "Z?") /\
  length (chatbot_prompt (history_lines h) (py "Z?")) <=
    length system_prompt + 45 + 2 * (24 + 19) + length (py "Z?").
Proof.
  intros h. assert (Hall : Forall (fun t => turn_size t <= 24) h) by (repeat constructor; vm_compute; lia).
  split; [exact Hall|]. exact (prompt_length_bounded h (py "Z?") 24 Hall).
Defined.
