(* ===== verification/Store.v ===== *)
(** * Store: the persisted store document and the two store loaders

    A store is the JSON document [{"id": ..., "name": ..., "files": [...]}]
    written to "<id>.json" by src/create_store.py and src/app.py.  Two
    loaders read it back and resolve each remote file name with
    [genai.get_file], skipping (with a warning) the names that fail:
    - the set-up part of [run_chatbot] in src/chatbot.py (lines 62-87),
      which exits with status 1 when the document is missing or no file
      resolves;
    - [load_document_store] of src/app.py (lines 74-93), which reads
      [st.session_state.api_key] and configures the library with it
      (a session without a key raises [AttributeError], caught like any
      error), and returns the empty list on any error.
    Both share the resolution loop [resolve_files], characterised by the
    reference functions [resolved] and [warnings].  [store_doc_ok] is the
    type of the document the loaders read: the builders' documents have
    it, and on it neither loader raises. *)

From stdpp Require Import base list gmap strings.
From S2P Require Import Prelude Effects Genai.
#[local] Set Warnings "-clear-no-such-hyp".

(** ** The document *)

Record StoreRecord := mkStore {
  store_id : pystr;
  store_name : pystr;
  store_files : list pystr
}.

(** [store_data] as [json.dump] writes it. *)
Definition store_json (s : StoreRecord) : json :=
  JObj [(py "id", JStr (store_id s)); (py "name", JStr (store_name s));
        (py "files", JArr (map JStr (store_files s)))].

(** The type of a store document as the loaders read it: an object whose
    "id" is a string and whose "files" is a list of strings. *)
Definition is_jstr (v : json) : bool := match v with JStr _ => true | _ => false end.

Definition store_doc_ok (d : json) : bool :=
  match d with
  | JObj kvs =>
      match obj_lookup (py "id") kvs, obj_lookup (py "files") kvs with
      | Some (JStr _), Some (JArr fs) => forallb is_jstr fs
      | _, _ => false
      end
  | _ => false
  end.

(** [f"{store_id}.json"]. *)
Definition store_file_name (id : pystr) : pystr := id +++ py ".json".

Section Loaders.
Context {R : Type} `{Genai R}.

(** [genai.get_file(name)] as a value: the file, or the error. *)
Definition get_json (r : R) (v : json) : PyExc + File :=
  match v with
  | JStr s => get_file s r
  | _ => inl (mkExc AttributeError [])
  end.

(** ** The resolution loop *)

(** [for name in names: try: files.append(genai.get_file(name))
    except Exception as e: <warn>]. *)
Fixpoint resolve_files (warn : json -> PyExc -> pystr) (names : list json) : PyM R (list File) :=
  match names with
  | [] => ret []
  | n :: rest =>
      r <- try_except (f <- call_get_file_json n ;; ret [f])
                      (fun e => print (warn n e) ;; ret []) ;;
      fs <- resolve_files warn rest ;;
      ret (r ++ fs)
  end.

(** Reference definitions: the files that resolve, and one warning per
    name that does not, in order. *)
Definition resolved (r : R) (names : list json) : list File :=
  omap (fun n => match get_json r n with inr f => Some f | inl _ => None end) names.

Definition warnings (warn : json -> PyExc -> pystr) (r : R) (names : list json) : list pystr :=
  omap (fun n => match get_json r n with inr _ => None | inl e => Some (warn n e) end) names.

(** ** src/chatbot.py, lines 62-87 *)

(** [f"⚠ Warning: Could not load file {name}: {e}"]. *)
Definition cli_warning (n : json) (e : PyExc) : pystr :=
  [WARN] +++ py " Warning: Could not load file " +++ py_fmt n +++ py ": " +++ exc_msg e.

Definition cli_load_store (store_id : pystr) : PyM R (list File) :=
  let store_file := store_file_name store_id in
  store_data <- try_except_class FileNotFoundError
    (d <- json_load store_file ;;
     name <- dict_get d (py "name") (JStr (py "Unknown")) ;;
     print ([CHECK] +++ py " Loaded file search store: " +++ py_fmt name) ;;
     sid <- getitem d (py "id") ;;
     print (py "  Store ID: " +++ py_fmt sid) ;;
     ret d)
    (fun _ => print ([CROSS] +++ py " Store file '" +++ store_file +++
                     py "' not found. Run create_store.py first.") ;;
              sys_exit 1) ;;
  file_names <- getitem store_data (py "files") ;;
  names <- json_iter file_names ;;
  files <- resolve_files cli_warning names ;;
  if negb (truthy files)
  then print ([CROSS] +++ py " No files available in the store") ;; sys_exit 1
  else print ([CHECK] +++ py " Loaded " +++ py_int (length files) +++ py " document(s)") ;;
       ret files.

(** ** src/app.py, lines 74-93 *)

(** [f"Could not load file {file_name}: {str(e)}"], shown by [st.warning]. *)
Definition app_warning (n : json) (e : PyExc) : pystr :=
  py "Could not load file " +++ py_fmt n +++ py ": " +++ exc_msg e.

(** Reading [st.session_state.api_key] when the session has no key. *)
Definition api_key_missing : PyExc :=
  mkExc AttributeError (py "st.session_state has no attribute api_key").

(** [st.session_state.api_key], the session's key [k]. *)
Definition session_api_key (k : option pystr) : PyM R pystr :=
  match k with Some k => ret k | None => raise api_key_missing end.

(** [load_document_store(store_id)], in a session whose key is
    [api_key]; [st.warning] and [st.error] are console lines of the
    model. *)
Definition load_document_store (api_key : option pystr) (store_id : pystr) : PyM R (list File) :=
  try_except
    (store_data <- json_load (store_file_name store_id) ;;
     k <- session_api_key api_key ;;
     configure k ;;
     file_names <- getitem store_data (py "files") ;;
     names <- json_iter file_names ;;
     resolve_files app_warning names)
    (fun e => print (py "Error loading document store: " +++ exc_msg e) ;; ret []).

End Loaders.

(** ** Lemmas *)

Section LoaderLemmas.
Context {R : Type} `{Genai R}.

Lemma resolved_cons (r : R) n ns :
  resolved r (n :: ns) =
  match get_json r n with inr f => f :: resolved r ns | inl _ => resolved r ns end.
Proof. unfold resolved. simpl. by destruct (get_json r n). Qed.

Lemma warnings_cons warn (r : R) n ns :
  warnings warn r (n :: ns) =
  match get_json r n with inr _ => warnings warn r ns | inl e => warn n e :: warnings warn r ns end.
Proof. unfold warnings. simpl. by destruct (get_json r n). Qed.

Lemma call_get_file_json_spec (n : json) (w : World R) :
  call_get_file_json n w =
  (match get_json (w_remote w) n with inl e => Raise e | inr f => Ok f end, w).
Proof. by destruct n. Qed.

(** The resolution loop computes [resolved] and prints [warnings]. *)
Lemma resolve_files_eq warn names (w : World R) :
  resolve_files warn names w =
  (Ok (resolved (w_remote w) names),
   set_out (w_out w ++ warnings warn (w_remote w) names) w).
Proof.
  revert w. induction names as [|n rest IH]; intros w.
  - simpl. by rewrite app_nil_r, set_out_id.
  - cbn [resolve_files]. unfold bind at 1, try_except.
    unfold bind at 1. rewrite call_get_file_json_spec.
    destruct (get_json (w_remote w) n) as [e|f] eqn:E; simpl; unfold bind;
      rewrite IH; simpl; unfold resolved, warnings; simpl; rewrite E;
      [by rewrite <- app_assoc|done].
Qed.

Lemma length_resolved_warnings warn (r : R) names :
  length (resolved r names) + length (warnings warn r names) = length names.
Proof.
  induction names as [|n ns IH]; [done|]. rewrite resolved_cons, warnings_cons.
  destruct (get_json r n); simpl; lia.
Qed.

(** C9. The resolution loop never fails: it returns the files that
    resolve, in the order of the names, writes one warning per name that
    does not (so files and warnings together account for every name), and
    changes nothing else. *)
Theorem resolve_files_spec warn names (w : World R) :
  resolve_files warn names w =
  (Ok (resolved (w_remote w) names),
   set_out (w_out w ++ warnings warn (w_remote w) names) w) /\
  length (resolved (w_remote w) names) + length (warnings warn (w_remote w) names) = length names.
Proof. split; [apply resolve_files_eq|apply length_resolved_warnings]. Qed.

Lemma resolve_files_exits P warn names : exits_with P (resolve_files (R:=R) warn names).
Proof. intros w. by rewrite resolve_files_eq. Qed.

End LoaderLemmas.

#[export] Hint Resolve resolve_files_exits : pyexit.

(** The chatbot's loader ends the program only by [sys.exit(1)]. *)
Lemma cli_load_store_exits {R} `{Genai R} sid :
  exits_with (fun c => c = 1%N) (cli_load_store (R:=R) sid).
Proof. unfold cli_load_store. exits_solve. Qed.

Section CliLoad.
Context {R : Type} `{Genai R}.

(** What the chatbot's set-up does with a well-formed store document:
    the files that resolve, or exit status 1 when none does. *)
Definition cli_load_result (r : R) (s : StoreRecord) : outcome (list File) :=
  let fs := resolved r (map JStr (store_files s)) in
  if truthy fs then Ok fs else Exit 1.

(** Its console output. *)
Definition cli_load_out (r : R) (s : StoreRecord) : list pystr :=
  let fs := resolved r (map JStr (store_files s)) in
  [[CHECK] +++ py " Loaded file search store: " +++ store_name s;
   py "  Store ID: " +++ store_id s] ++
  warnings cli_warning r (map JStr (store_files s)) ++
  [if truthy fs
   then [CHECK] +++ py " Loaded " +++ py_int (length fs) +++ py " document(s)"
   else [CROSS] +++ py " No files available in the store"].

Lemma cli_load_store_eq sid s (w : World R) :
  w_fs w !! store_file_name sid = Some (FJson (store_json s)) ->
  cli_load_store sid w =
  (cli_load_result (w_remote w) s, set_out (w_out w ++ cli_load_out (w_remote w) s) w).
Proof.
  intros Hfs. unfold cli_load_store, try_except_class, bind, json_load.
  rewrite Hfs. simpl. rewrite resolve_files_eq. simpl.
  unfold cli_load_result, cli_load_out.
  destruct (truthy (resolved (w_remote w) (map JStr (store_files s)))); simpl;
    by rewrite <- !app_assoc.
Qed.

(** C11. With a well-formed store document on disk, the chatbot's set-up
    returns the files that resolve, in order, or exits with status 1 when
    none does; it prints the store's name and id, one warning per file
    that fails, and a final line, and leaves the local files and the
    service as they were. *)
Theorem cli_load_store_doc sid s (w : World R) :
  w_fs w !! store_file_name sid = Some (FJson (store_json s)) ->
  fst (cli_load_store sid w) = cli_load_result (w_remote w) s /\
  w_out (snd (cli_load_store sid w)) = w_out w ++ cli_load_out (w_remote w) s /\
  w_fs (snd (cli_load_store sid w)) = w_fs w /\
  w_remote (snd (cli_load_store sid w)) = w_remote w.
Proof. intros Hfs. by rewrite (cli_load_store_eq _ _ _ Hfs). Qed.

End CliLoad.

(** ** Properties of the loaders *)

Section LoaderProps.
Context {R : Type} `{Genai R}.

(** The message of a missing store document. *)
Definition cli_missing_msg (sid : pystr) : pystr :=
  [CROSS] +++ py " Store file '" +++ store_file_name sid +++
  py "' not found. Run create_store.py first.".

(** C10. Without a store document the chatbot's set-up prints that the
    store file was not found and exits with status 1 (StoreNotFound),
    without calling the service. *)
Theorem cli_load_store_missing sid (w : World R) :
  w_fs w !! store_file_name sid = None ->
  cli_load_store sid w = (Exit 1, set_out (w_out w ++ [cli_missing_msg sid]) w).
Proof. intros Hfs. unfold cli_load_store, try_except_class, bind, json_load. by rewrite Hfs. Qed.

(** A store with one file that resolves and one that does not loads
    as a one-element list with one warning, naming the file that failed;
    when no file resolves the set-up exits with status 1
    (NoFilesAvailable). *)
Theorem cli_load_partial sid nm fa fb f e e' (w : World R) :
  w_fs w !! store_file_name sid = Some (FJson (store_json (mkStore sid nm [fa; fb]))) ->
  get_file fb (w_remote w) = inl e ->
  (get_file fa (w_remote w) = inr f ->
   fst (cli_load_store sid w) = Ok [f] /\
   warnings cli_warning (w_remote w) [JStr fa; JStr fb] = [cli_warning (JStr fb) e]) /\
  (get_file fa (w_remote w) = inl e' -> fst (cli_load_store sid w) = Exit 1).
Proof.
  intros Hfs Hb. rewrite (cli_load_store_eq _ _ _ Hfs). unfold cli_load_result, warnings, resolved.
  split; intros Ha; simpl; by rewrite Ha, Hb.
Qed.

(** The web app's loader on a well-formed store document. *)
Lemma load_document_store_doc k sid s (w : World R) :
  w_fs w !! store_file_name sid = Some (FJson (store_json s)) ->
  exists w', load_document_store (Some k) sid w =
    (Ok (resolved (w_remote w) (map JStr (store_files s))), w') /\
    w_remote w' = w_remote w /\ w_fs w' = w_fs w.
Proof.
  intros Hfs. unfold load_document_store, try_except, bind, json_load.
  rewrite Hfs. simpl. rewrite resolve_files_eq. by eexists.
Qed.

(** ... and it leaves the library configured with the session's key. *)
Lemma load_document_store_key k sid s (w : World R) :
  w_fs w !! store_file_name sid = Some (FJson (store_json s)) ->
  w_genai_key (snd (load_document_store (Some k) sid w)) = Some k.
Proof.
  intros Hfs. unfold load_document_store, try_except, bind, json_load.
  rewrite Hfs. simpl. by rewrite resolve_files_eq.
Qed.

(** C40. The store document is well typed end to end: every document
    the builders write ([store_json]) has the type [store_doc_ok], and on
    any document of that type neither loader raises: the web app's
    returns the files that resolve, and the chatbot's returns them too,
    or exits with status 1 when none does. *)
Theorem store_doc_typed k sid d (w : World R) :
  (forall s, store_doc_ok (store_json s) = true) /\
  (w_fs w !! store_file_name sid = Some (FJson d) -> store_doc_ok d = true ->
   exists names,
     fst (load_document_store (Some k) sid w) = Ok (resolved (w_remote w) names) /\
     fst (cli_load_store sid w) =
       if truthy (resolved (w_remote w) names) then Ok (resolved (w_remote w) names) else Exit 1%N).
Proof.
  split.
  - intros s. unfold store_doc_ok, store_json. simpl.
    induction (store_files s) as [|x xs IH]; [done|]. exact IH.
  - intros Hfs Hok. destruct d as [| | | | |kvs]; try discriminate. simpl in Hok.
    destruct (obj_lookup (py "id") kvs) as [[]|] eqn:Eid; try discriminate.
    destruct (obj_lookup (py "files") kvs) as [[]|] eqn:Ef; try discriminate.
    eexists. split.
    + unfold load_document_store, try_except, bind, json_load. rewrite Hfs. simpl.
      rewrite Ef. simpl. by rewrite resolve_files_eq.
    + unfold cli_load_store, try_except_class, bind, json_load. rewrite Hfs. simpl.
      rewrite Eid. simpl. rewrite Ef. simpl. rewrite resolve_files_eq. simpl.
      by destruct (truthy _).
Qed.

(** C14. The web app's loader returns the files that resolve with one
    warning per failure when the document is there (after configuring
    the library with the session's key), the empty list with an error
    line when it is missing, and the empty list with an error line when
    the session has no key; it never raises. *)
Theorem load_document_store_spec ko sid (w : World R) :
  (w_fs w !! store_file_name sid = None ->
   load_document_store ko sid w =
   (Ok [], set_out (w_out w ++ [py "Error loading document store: [Errno 2] No such file or directory: '" +++
                                store_file_name sid +++ py "'"]) w)) /\
  (forall s, w_fs w !! store_file_name sid = Some (FJson (store_json s)) ->
   (forall k, ko = Some k ->
    load_document_store ko sid w =
    (Ok (resolved (w_remote w) (map JStr (store_files s))),
     set_out (w_out w ++ warnings app_warning (w_remote w) (map JStr (store_files s)))
             (set_genai_key (Some k) w))) /\
   (ko = None ->
    load_document_store ko sid w =
    (Ok [], set_out (w_out w ++ [py "Error loading document store: " +++ exc_msg api_key_missing]) w))).
Proof.
  split; [intros Hfs|intros s Hfs; split; [intros k ->|intros ->]];
    unfold load_document_store, try_except, bind, json_load; rewrite Hfs; simpl;
    [by rewrite <- ?app_assoc|by rewrite resolve_files_eq|done].
Qed.

End LoaderProps.

(** ** A concrete world, and witnesses *)

Definition ex_file : File := mkFile (py "files/a1") (py "./papers/a.pdf").

Definition ex_remote : SimGenai.state :=
  SimGenai.mkState {[ py "files/a1" := ex_file ]} [] [] (fun _ => inl (mkExc APIError [])) [].

(** A store whose second file is gone from the service. *)
Definition ex_store : StoreRecord :=
  mkStore (py "s1") (py "My Research Papers 2025") [py "files/a1"; py "files/gone"].

Definition ex_world : World SimGenai.state :=
  mkWorld {[ store_file_name (py "s1") := FJson (store_json ex_store) ]} ex_remote [] [] 0
          (fun _ => py "s1") 0 ∅ None.

Lemma ex_world_doc :
  w_fs ex_world !! store_file_name (py "s1") = Some (FJson (store_json ex_store)).
Proof. vm_compute. reflexivity. Qed.

Lemma cli_load_store_missing_witness :
  w_fs ex_world !! store_file_name (py "s2") = None /\
  cli_load_store (py "s2") ex_world =
  (Exit 1, set_out (w_out ex_world ++ [cli_missing_msg (py "s2")]) ex_world).
Proof.
  assert (Hfs : w_fs ex_world !! store_file_name (py "s2") = None) by (vm_compute; reflexivity).
  split; [exact Hfs|]. apply cli_load_store_missing. exact Hfs.
Defined.

Lemma cli_load_store_doc_witness :
  w_fs ex_world !! store_file_name (py "s1") = Some (FJson (store_json ex_store)) /\
  fst (cli_load_store (py "s1") ex_world) = cli_load_result (w_remote ex_world) ex_store /\
  w_out (snd (cli_load_store (py "s1") ex_world)) =
    w_out ex_world ++ cli_load_out (w_remote ex_world) ex_store /\
  w_fs (snd (cli_load_store (py "s1") ex_world)) = w_fs ex_world /\
  w_remote (snd (cli_load_store (py "s1") ex_world)) = w_remote ex_world.
Proof. split; [exact ex_world_doc|]. apply cli_load_store_doc. exact ex_world_doc. Defined.

Lemma cli_load_partial_witness :
  let e := mkExc APIError (py "files/gone") in
  get_file (py "files/gone") (w_remote ex_world) = inl e /\
  ((get_file (py "files/a1") (w_remote ex_world) = inr ex_file ->
    fst (cli_load_store (py "s1") ex_world) = Ok [ex_file] /\
    warnings cli_warning (w_remote ex_world) [JStr (py "files/a1"); JStr (py "files/gone")] =
      [cli_warning (JStr (py "files/gone")) e]) /\
   (get_file (py "files/a1") (w_remote ex_world) = inl e ->
    fst (cli_load_store (py "s1") ex_world) = Exit 1)).
Proof.
  assert (Hb : get_file (py "files/gone") (w_remote ex_world) = inl (mkExc APIError (py "files/gone")))
    by (vm_compute; reflexivity).
  split; [exact Hb|].
  apply (cli_load_partial (py "s1") (py "My Research Papers 2025")); [exact ex_world_doc|exact Hb].
Defined.

(** The concrete outcome on [ex_world]: one file, one warning. *)
Example ex_world_load :
  fst (cli_load_store (py "s1") ex_world) = Ok [ex_file].
Proof. vm_compute. reflexivity. Qed.

Lemma store_doc_typed_witness :
  w_fs ex_world !! store_file_name (py "s1") = Some (FJson (store_json ex_store)) /\
  store_doc_ok (store_json ex_store) = true /\
  exists names,
    fst (load_document_store (Some (py "k1")) (py "s1") ex_world) = Ok (resolved (w_remote ex_world) names) /\
    fst (cli_load_store (py "s1") ex_world) =
      if truthy (resolved (w_remote ex_world) names)
      then Ok (resolved (w_remote ex_world) names) else Exit 1%N.
Proof.
  assert (Hok : store_doc_ok (store_json ex_store) = true) by (vm_compute; reflexivity).
  split_and!; [exact ex_world_doc|exact Hok|].
  exact (proj2 (store_doc_typed (py "k1") (py "s1") (store_json ex_store) ex_world) ex_world_doc Hok).
Defined.

(** A document without "files" is not of the type: the chatbot's loader
    raises [KeyError] on it. *)
Example store_doc_untyped :
  let d := JObj [(py "id", JStr (py "s1"))] in
  let w := set_fs {[ store_file_name (py "s1") := FJson d ]} ex_world in
  store_doc_ok d = false /\ fst (cli_load_store (py "s1") w) = Raise (mkExc KeyError (py "'files'")).
Proof. vm_compute. split; reflexivity. Qed.
