(* ===== verification/ChatLoop.v ===== *)
(** * ChatLoop: the interactive loop of src/chatbot.py

    After its set-up, [run_chatbot] (src/chatbot.py, lines 123-166) loops:
    read a line, stop on a quit keyword, skip a blank line, otherwise
    build the prompt from the history, call the model with the prompt and
    the files, print the answer and its sources, and append the turn to
    the history.  Every [Exception] of an iteration, [EOFError] from
    [input()] included, is caught, printed, and the loop goes on.

    [chat_iteration] is one iteration; [chat_loop] runs iterations with
    fuel, since the Python loop has no bound of its own.  [turn_result]
    is the reference: what one iteration returns and prints, by case.
    The history is a list of lines that always consists of whole turns
    ([history_invariant]); the loop ends when a quit line is read
    ([chat_loop_terminates]) and never ends once input is exhausted
    ([chat_loop_eof_diverges]). *)

From stdpp Require Import base list gmap strings.
From S2P Require Import Prelude Effects Genai Citations Prompt.
#[local] Set Warnings "-clear-no-such-hyp".

Definition QUIT_WORDS : list pystr := [py "quit"; py "exit"; py "q"].

(** [user_input.lower() in ['quit', 'exit', 'q']] for [user_input = line.strip()]. *)
Definition is_quit (line : pystr) : bool :=
  bool_decide (py_lower (py_strip line) ∈ QUIT_WORDS).

Definition question_prompt : pystr := [NL; QUESTION] +++ py " Your question: ".
Definition goodbye_msg : pystr := [WAVE] +++ py " Goodbye!".
Definition thinking_msg : pystr := [THINK] +++ py " Thinking...".
Definition answer_msg (text : pystr) : pystr := [NL; ROBOT] +++ py " Answer: " +++ text.
Definition sorry_msg : pystr := [NL; ROBOT] +++ py " Sorry, I couldn't generate a response.".
Definition error_msg (e : PyExc) : pystr := [CROSS] +++ py " Error: " +++ exc_msg e.

Section Loop.
Context {R : Type} `{Genai R} `{PySet}.

(** One iteration of [while True:] (lines 128-166): [None] is [break],
    [Some h] the history for the next iteration. *)
Definition chat_iteration (model : Model) (files : list File) (history : list pystr)
    : PyM R (option (list pystr)) :=
  try_except
    (line <- input question_prompt ;;
     let user_input := py_strip line in
     if bool_decide (py_lower user_input ∈ QUIT_WORDS)
     then print goodbye_msg ;; ret None
     else if negb (truthy user_input) then ret (Some history)
     else
       let full_prompt := chatbot_prompt history user_input in
       print thinking_msg ;;
       response <- call_generate_content model (PText full_prompt :: map PFile files) ;;
       text <- lift (resp_text response) ;;
       if truthy text
       then print (answer_msg text) ;;
            let citations := extract_citations response in
            (if truthy citations then print citations else ret tt) ;;
            ret (Some (history ++ [user_line user_input; assistant_line text]))
       else print sorry_msg ;; ret (Some history))
    (fun e => print (error_msg e) ;; ret (Some history)).

(** The loop, with at most [fuel] iterations; it returns the history. *)
Fixpoint chat_loop (fuel : nat) (model : Model) (files : list File) (history : list pystr)
    : PyM R (list pystr) :=
  match fuel with
  | O => fun w => (NoFuel, w)
  | S n =>
      r <- chat_iteration model files history ;;
      match r with
      | None => ret history
      | Some h => chat_loop n model files h
      end
  end.

(** ** The reference: one turn, by case *)

(** After a non-blank question [q] reached the model: the next history
    and the lines printed after "Thinking...". *)
Definition answer_result (history : list pystr) (q : pystr) (resp : PyExc + Response)
    : list pystr * list pystr :=
  match resp with
  | inl e => (history, [error_msg e])
  | inr response =>
      match resp_text response with
      | inl e => (history, [error_msg e])
      | inr text =>
          if truthy text
          then (history ++ [user_line q; assistant_line text],
                answer_msg text ::
                (if truthy (extract_citations response) then [extract_citations response] else []))
          else (history, [sorry_msg])
      end
  end.

(** One iteration on the line [l]: the result and the lines printed
    after the prompt. *)
Definition turn_result (r : R) (model : Model) (files : list File) (history : list pystr)
    (l : pystr) : option (list pystr) * list pystr :=
  let q := py_strip l in
  if is_quit l then (None, [goodbye_msg])
  else if negb (truthy q) then (Some history, [])
  else
    let '(h', out) :=
      answer_result history q
        (generate_content model (PText (chatbot_prompt history q) :: map PFile files) r) in
    (Some h', thinking_msg :: out).

End Loop.

(** ** One iteration *)

Section IterationLemmas.
Context {R : Type} `{Genai R} `{PySet}.

Lemma chat_iteration_eq m fs h (w : World R) l ls :
  w_stdin w = l :: ls ->
  chat_iteration m fs h w =
  (Ok (turn_result (w_remote w) m fs h l).1,
   set_stdin ls (set_out (w_out w ++ question_prompt :: (turn_result (w_remote w) m fs h l).2) w)).
Proof.
  intros Hin. unfold chat_iteration, try_except, bind, input. rewrite Hin.
  unfold turn_result, is_quit. cbn -[py extract_citations chatbot_prompt].
  destruct (bool_decide _); cbn -[py extract_citations chatbot_prompt]; [world_eq|].
  destruct (truthy (py_strip l)); cbn -[py extract_citations chatbot_prompt]; [|world_eq].
  unfold call_generate_content, lift, answer_result. cbn -[py extract_citations chatbot_prompt].
  destruct (generate_content m _ (w_remote w)) as [e|resp];
    cbn -[py extract_citations chatbot_prompt]; [world_eq|].
  destruct (resp_text resp) as [e|text]; cbn -[py extract_citations chatbot_prompt]; [world_eq|].
  destruct (truthy text); cbn -[py extract_citations chatbot_prompt]; [|world_eq].
  destruct (truthy (extract_citations resp)); cbn -[py extract_citations chatbot_prompt]; world_eq.
Qed.

Lemma chat_iteration_eof m fs h (w : World R) :
  w_stdin w = [] ->
  chat_iteration m fs h w =
  (Ok (Some h), set_out (w_out w ++ [question_prompt; error_msg (eof_error)]) w).
Proof.
  intros Hin. unfold chat_iteration, try_except, bind, input. rewrite Hin.
  cbn -[py]. world_eq.
Qed.

End IterationLemmas.

(** ** The loop *)

Section LoopProps.
Context {R : Type} `{Genai R} `{PySet}.

(** The states (history, world) the loop reaches from an empty history,
    one iteration at a time. *)
Inductive chat_reachable (m : Model) (fs : list File) : list pystr * World R -> Prop :=
| reach_start w : chat_reachable m fs ([], w)
| reach_step h w h' w' :
    chat_reachable m fs (h, w) ->
    chat_iteration m fs h w = (Ok (Some h'), w') ->
    chat_reachable m fs (h', w').

Lemma history_lines_snoc ts t : history_lines (ts ++ [t]) = history_lines ts ++ turn_lines t.
Proof. unfold history_lines. rewrite map_app, concat_app. simpl. by rewrite ?app_nil_r. Qed.

(** An iteration keeps the history or appends one whole turn. *)
Lemma chat_iteration_history m fs h (w : World R) h' w' :
  chat_iteration m fs h w = (Ok (Some h'), w') ->
  h' = h \/ exists t, h' = h ++ turn_lines t.
Proof.
  destruct (w_stdin w) as [|l ls] eqn:Hin.
  - rewrite (chat_iteration_eof _ _ _ _ Hin). intros [= <- _]. by left.
  - rewrite (chat_iteration_eq _ _ _ _ _ _ Hin). intros [= Hr _].
    unfold turn_result in Hr. destruct (is_quit l); [done|].
    destruct (truthy (py_strip l)); cbn -[py] in Hr; [|injection Hr as <-; by left].
    unfold answer_result in Hr.
    destruct (generate_content _ _ _) as [e|resp]; cbn -[py] in Hr; [injection Hr as <-; by left|].
    destruct (resp_text resp) as [e|text]; cbn -[py] in Hr; [injection Hr as <-; by left|].
    destruct (truthy text); cbn -[py] in Hr; injection Hr as <-; [right|by left].
    by exists (mkTurn (py_strip l) text).
Qed.

Lemma reachable_history_lines m fs h (w : World R) :
  chat_reachable m fs (h, w) -> exists ts, h = history_lines ts.
Proof.
  remember (h, w) as s eqn:Es. intros Hr. revert h w Es.
  induction Hr as [w0|h0 w0 h1 w1 Hr IH Hit]; intros h w Es; injection Es as Eh Ew; subst.
  - by exists [].
  - destruct (IH h0 w0 eq_refl) as [ts ->].
    destruct (chat_iteration_history _ _ _ _ _ _ Hit) as [->|[t ->]]; [by exists ts|].
    exists (ts ++ [t]). by rewrite history_lines_snoc.
Qed.

(** C21. The loop's history always consists of whole turns: in every
    state reached from the empty history it is the "User:"/"Assistant:"
    lines of a list of turns, oldest first, two lines per turn. *)
Theorem history_invariant m fs h (w : World R) :
  chat_reachable m fs (h, w) ->
  exists ts, h = history_lines ts /\ length h = 2 * length ts.
Proof.
  intros Hr. destruct (reachable_history_lines _ _ _ _ Hr) as [ts ->].
  exists ts. split; [done|]. apply length_history_lines.
Qed.

(** C22. In every state the loop reaches, the prompt it would send for a
    question [q] is the contract's prompt for the last two answered
    turns. *)
Theorem reachable_prompt m fs h (w : World R) q :
  chat_reachable m fs (h, w) ->
  exists ts, h = history_lines ts /\
             chatbot_prompt h q = assemble system_prompt (py_tail 2 ts) q.
Proof.
  intros Hr. destruct (reachable_history_lines _ _ _ _ Hr) as [ts ->].
  exists ts. split; [done|]. apply chatbot_prompt_lines.
Qed.

End LoopProps.

(** ** Termination and divergence *)

Section LoopRuns.
Context {R : Type} `{Genai R} `{PySet}.

(** Only a quit line ends an iteration with [break]. *)
Lemma turn_result_continue (r : R) m fs h l :
  is_quit l = false -> exists h', (turn_result r m fs h l).1 = Some h'.
Proof.
  intros Hq. unfold turn_result. rewrite Hq.
  destruct (truthy (py_strip l)); cbn -[py]; [|eauto].
  destruct (answer_result _ _ _). eauto.
Qed.

(** C23. The loop terminates on a quit keyword: if standard input holds
    lines that are not quit keywords followed by one that is, the loop
    ends normally within one iteration per line read, whatever the
    service answers. *)
Theorem chat_loop_terminates m fs pre l rest fuel h (w : World R) :
  w_stdin w = pre ++ l :: rest ->
  Forall (fun x => is_quit x = false) pre ->
  is_quit l = true ->
  length pre < fuel ->
  exists h', fst (chat_loop fuel m fs h w) = Ok h'.
Proof.
  revert fuel h w. induction pre as [|x pre IH]; intros fuel h w Hin Hpre Hq Hfuel.
  - destruct fuel as [|n]; [simpl in Hfuel; lia|]. cbn [chat_loop]. unfold bind at 1.
    rewrite (chat_iteration_eq _ _ _ _ _ _ Hin). unfold turn_result. rewrite Hq. eauto.
  - destruct fuel as [|n]; [simpl in Hfuel; lia|]. apply Forall_cons in Hpre as [Hx Hpre].
    cbn [chat_loop]. unfold bind at 1. rewrite (chat_iteration_eq _ _ _ _ _ _ Hin).
    destruct (turn_result_continue (w_remote w) m fs h x Hx) as [h1 Eh].
    rewrite Eh. simpl in Hfuel. eapply IH; [|done|done|lia]. done.
Qed.

(** C24. At the end of input the loop never terminates: [input()] raises
    [EOFError], which the loop's [except Exception] catches; it prints
    the prompt and "❌ Error: " and reads again, forever.  Whatever fuel
    the model is given, it runs out, with two more lines of output per
    iteration. *)
Theorem chat_loop_eof_diverges m fs h (w : World R) fuel :
  w_stdin w = [] ->
  chat_loop fuel m fs h w =
  (NoFuel, set_out (w_out w ++ concat (replicate fuel [question_prompt; error_msg (eof_error)])) w).
Proof.
  revert w. induction fuel as [|n IH]; intros w Hin.
  - simpl. by rewrite app_nil_r, set_out_id.
  - cbn [chat_loop]. unfold bind at 1. rewrite (chat_iteration_eof _ _ _ _ Hin).
    rewrite IH by done. cbn -[py]. world_eq.
Qed.

(** No exception escapes the loop, and it never calls [sys.exit]. *)
Lemma chat_loop_no_raise fuel m fs h : no_raise (chat_loop (R:=R) fuel m fs h).
Proof.
  revert h. induction fuel as [|n IH]; intros h; [done|]. cbn [chat_loop].
  apply no_raise_bind; [|intros []; [apply IH|apply no_raise_ret]].
  apply no_raise_try_except. intros e w. done.
Qed.

Lemma chat_loop_exits P fuel m fs h : exits_with P (chat_loop (R:=R) fuel m fs h).
Proof.
  revert h. induction fuel as [|n IH]; intros h; [done|]. cbn [chat_loop].
  unfold chat_iteration. exits_solve.
Qed.

End LoopRuns.

(** ** A concrete session, and witnesses *)

Definition chat_file : File := mkFile (py "files/a1") (py "./papers/a.pdf").
Definition chat_model : Model := mkModel (py "gemini-2.5-flash").

(** The service answers every prompt with one cited answer. *)
Definition chat_response : Response :=
  mkResp (inr (py "X is a method."))
         (Some [mkCand (Some [mkAttr (Some (py "Paper A")) None])]).

Definition chat_remote : SimGenai.state :=
  SimGenai.mkState {[ py "files/a1" := chat_file ]} [] [py "gemini-2.5-flash"]
                   (fun _ => inr chat_response) [].

Definition chat_world (stdin : list pystr) : World SimGenai.state :=
  mkWorld ∅ chat_remote [] stdin 0 (fun _ => []) 0 ∅ None.

Definition chat_w0 : World SimGenai.state := chat_world [py "  What is X? "; py "QUIT"].

(** The state after the first iteration on [chat_w0]. *)
Definition chat_s1 := chat_iteration chat_model [chat_file] [] chat_w0.
Definition chat_h1 : list pystr :=
  match fst chat_s1 with Ok (Some h) => h | _ => [] end.

Lemma chat_s1_reachable : chat_reachable chat_model [chat_file] (chat_h1, snd chat_s1).
Proof.
  eapply (reach_step _ _ [] chat_w0); [apply reach_start|].
  vm_compute. reflexivity.
Qed.

Lemma history_invariant_witness :
  chat_reachable chat_model [chat_file] (chat_h1, snd chat_s1) /\
  exists ts, chat_h1 = history_lines ts /\ length chat_h1 = 2 * length ts.
Proof. split; [exact chat_s1_reachable|]. exact (history_invariant _ _ _ _ chat_s1_reachable). Defined.

Lemma reachable_prompt_witness :
  chat_reachable chat_model [chat_file] (chat_h1, snd chat_s1) /\
  exists ts, chat_h1 = history_lines ts /\
             chatbot_prompt chat_h1 (py "And Y?") = assemble system_prompt (py_tail 2 ts) (py "And Y?").
Proof.
  split; [exact chat_s1_reachable|].
  exact (reachable_prompt _ _ _ _ (py "And Y?") chat_s1_reachable).
Defined.

Lemma chat_loop_terminates_witness :
  w_stdin chat_w0 = [py "  What is X? "] ++ py "QUIT" :: [] /\
  Forall (fun x => is_quit x = false) [py "  What is X? "] /\
  is_quit (py "QUIT") = true /\ length [py "  What is X? "] < 2 /\
  exists h', fst (chat_loop 2 chat_model [chat_file] [] chat_w0) = Ok h'.
Proof.
  assert (H1 : w_stdin chat_w0 = [py "  What is X? "] ++ py "QUIT" :: []) by reflexivity.
  assert (H2 : Forall (fun x => is_quit x = false) [py "  What is X? "])
    by (constructor; [vm_compute; reflexivity|constructor]).
  assert (H3 : is_quit (py "QUIT") = true) by (vm_compute; reflexivity).
  assert (H4 : length [py "  What is X? "] < 2) by (simpl; lia).
  split_and!; try assumption. exact (chat_loop_terminates _ _ _ _ _ _ _ _ H1 H2 H3 H4).
Defined.

Lemma chat_loop_eof_diverges_witness :
  w_stdin (chat_world []) = [] /\
  chat_loop 3 chat_model [chat_file] [] (chat_world []) =
  (NoFuel, set_out (w_out (chat_world []) ++
                    concat (replicate 3 [question_prompt; error_msg (eof_error)]))
                   (chat_world [])).
Proof. split; [reflexivity|]. apply chat_loop_eof_diverges. reflexivity. Defined.

(** The concrete session: the stripped question and the answer are kept,
    the sources line is printed, and "QUIT" ends the loop. *)
Example chat_w0_run :
  fst (chat_loop 5 chat_model [chat_file] [] chat_w0) =
    Ok [py "User: What is X?"; py "Assistant: X is a method."] /\
  extract_citations chat_response ∈ w_out (snd (chat_loop 5 chat_model [chat_file] [] chat_w0)).
Proof. split; vm_compute; [reflexivity|]. repeat (first [left | right]). Qed.
