(* ===== verification/AppSession.v ===== *)
(** * AppSession: the session of the Streamlit app and the monad of a run

    Streamlit keeps [st.session_state] across the runs of src/app.py.
    This file holds that state ([Session]), the widget values a run
    reads ([Inputs]), and the monad [AppM] of a run: state passing over
    the session and the world, whose outcome may also be [st.rerun()].
    The session is kept when a run stops on an exception, as Streamlit
    keeps it.  [preserves P m] says that [m] keeps a property [P] of the
    session however it ends; its lemmas are compositional. *)

From stdpp Require Import base list gmap strings.
From S2P Require Import Prelude Effects Genai Prompt.
#[local] Set Warnings "-clear-no-such-hyp".

(** ** The session and the widgets *)

(** [st.session_state]; [ss_api_key] is [None] while the attribute has
    never been set (line 147 is its only assignment). *)
Record Session := mkSession {
  ss_store_id : option pystr;
  ss_chat_history : list Turn;
  ss_files_loaded : bool;
  ss_api_key : option pystr
}.

(** Lines 16-22 on the empty [st.session_state] of a new browser session. *)
Definition fresh_session : Session := mkSession None [] false None.

Inductive UploadOption := UploadNew | LoadExisting.

(** The widget values of a run: the key field, the radio, the uploaded
    files (name and bytes), the store id field, whether each button was
    clicked, and the submitted chat text. *)
Record Inputs := mkInputs {
  in_api_key : pystr;
  in_option : UploadOption;
  in_uploads : list (pystr * pystr);
  in_create : bool;
  in_store_id : pystr;
  in_load : bool;
  in_clear : bool;
  in_question : option pystr
}.

(** The widget values of the run [st.rerun()] starts: buttons are no
    longer clicked and the chat text has been consumed. *)
Definition rerun_inputs (i : Inputs) : Inputs :=
  mkInputs (in_api_key i) (in_option i) (in_uploads i) false (in_store_id i) false false None.

(** ** The run monad *)

(** How a run ends: normally, on an exception Streamlit shows, by
    [st.rerun()], or as [sys.exit] or a model's fuel would end it. *)
Inductive app_outcome (A : Type) :=
| AOk (a : A)
| ARaise (e : PyExc)
| ARerun
| AExit (c : N)
| ANoFuel.
Arguments AOk {A} a. Arguments ARaise {A} e. Arguments ARerun {A}.
Arguments AExit {A} c. Arguments ANoFuel {A}.

Definition AppM (R A : Type) := Session -> World R -> app_outcome A * Session * World R.

Section AppMonad.
Context {R : Type}.
Local Abbreviation AppM := (AppM R).

Definition aret {A} (a : A) : AppM A := fun s w => (AOk a, s, w).

Definition abind {A B} (m : AppM A) (k : A -> AppM B) : AppM B := fun s w =>
  match m s w with
  | (AOk a, s', w') => k a s' w'
  | (ARaise e, s', w') => (ARaise e, s', w')
  | (ARerun, s', w') => (ARerun, s', w')
  | (AExit c, s', w') => (AExit c, s', w')
  | (ANoFuel, s', w') => (ANoFuel, s', w')
  end.

(** A computation on the world alone; the session is kept whatever it does. *)
Definition alift {A} (m : PyM R A) : AppM A := fun s w =>
  let '(o, w') := m w in
  (match o with Ok a => AOk a | Raise e => ARaise e | Exit c => AExit c | NoFuel => ANoFuel end, s, w').

Definition aget : AppM Session := fun s w => (AOk s, s, w).
Definition aput (s : Session) : AppM unit := fun _ w => (AOk tt, s, w).
Definition araise {A} (e : PyExc) : AppM A := fun s w => (ARaise e, s, w).

(** [st.rerun()]. *)
Definition st_rerun {A} : AppM A := fun s w => (ARerun, s, w).

End AppMonad.

Declare Scope app_scope.
Delimit Scope app_scope with app.
Notation "x <-- m ;;; k" := (abind m (fun x => k))
  (at level 100, m at next level, right associativity) : app_scope.
Notation "m ;;; k" := (abind m (fun _ => k))
  (at level 100, right associativity) : app_scope.
Open Scope app_scope.

(** ** Lemmas on the run monad *)

Section AppLemmas.
Context {R : Type}.
Local Abbreviation AppM := (AppM R).

(** [m] keeps [P] of the session, however it ends. *)
Definition preserves (P : Session -> Prop) {A} (m : AppM A) : Prop :=
  forall s w, P s -> P (m s w).1.2.

Lemma preserves_aret P {A} (a : A) : preserves P (aret a).
Proof. intros s w Hs. exact Hs. Qed.

Lemma preserves_alift P {A} (m : PyM R A) : preserves P (alift m).
Proof. intros s w Hs. unfold alift. by destruct (m w). Qed.

Lemma preserves_araise P {A} e : preserves P (@araise R A e).
Proof. intros s w Hs. exact Hs. Qed.

Lemma preserves_st_rerun P {A} : preserves P (@st_rerun R A).
Proof. intros s w Hs. exact Hs. Qed.

Lemma preserves_abind P {A B} (m : AppM A) (k : A -> AppM B) :
  preserves P m -> (forall a, preserves P (k a)) -> preserves P (abind m k).
Proof.
  intros Hm Hk s w Hs. specialize (Hm s w Hs). unfold abind.
  destruct (m s w) as [[[a|e| |c|] s'] w']; simpl in *; auto. by apply Hk.
Qed.

(** A continuation that reads the session may use what [P] says of it. *)
Lemma preserves_aget P {B} (k : Session -> AppM B) :
  (forall s, P s -> preserves P (k s)) -> preserves P (abind aget k).
Proof. intros Hk s w Hs. by apply Hk. Qed.

Lemma abind_ok {A B} (m : AppM A) (k : A -> AppM B) s w a s' w' :
  m s w = (AOk a, s', w') -> abind m k s w = k a s' w'.
Proof. intros E. unfold abind. by rewrite E. Qed.

Lemma alift_ok {A} (m : PyM R A) s w a w' :
  m w = (Ok a, w') -> alift m s w = (AOk a, s, w').
Proof. intros E. unfold alift. by rewrite E. Qed.

End AppLemmas.
