(* ===== verification/App.v ===== *)
(** * App: the Streamlit web app of src/app.py

    Streamlit runs the whole script of src/app.py once per user event
    ("a run"), with the values of the widgets as input, and keeps
    [st.session_state] across runs.  The session holds [store_id],
    [chat_history] (a list of {question, answer} turns), [files_loaded]
    and, once a key has been typed, [api_key].  [st.rerun()] stops the
    run and starts a new one with the same widget values and no click.

    - [chat_with_documents] (lines 95-129) answers one question;
    - [app_script] (lines 16-254) is one run, in the monad [AppM] that
      threads the session beside the world and keeps the session's
      updates when the run stops on an exception, as Streamlit does;
    - [app_event] is a user event: a run, and the run [st.rerun()] asks for;
    - [app_reachable] is the set of sessions a browser session reaches.
    The session, the widget values and the monad [AppM] are in
    [AppSession].  The theorems give each event its effect on the
    session (a question, "Create", "Load", "Clear", no key yet), the
    invariant of reachable sessions, and the key the library holds when
    a turn calls the service; a last example interleaves two sessions of
    one process.

    The page's static elements (title, headers, dividers, footer, style),
    spinners and the progress bar of the builder only display and are
    not modelled; each [st.success], [st.info], [st.warning],
    [st.error], [st.write] and chat message is one output line. *)

From stdpp Require Import base list gmap strings.
From S2P Require Import Prelude Effects Genai Citations Prompt Store Builder AppSession.
#[local] Set Warnings "-clear-no-such-hyp".

(** ** [chat_with_documents] *)

(** Line 98. *)
Definition APP_MODEL : pystr := py "gemini-pro".

Section Chat.
Context {R : Type} `{Genai R} `{PySet}.

(** Lines 95-129: any exception becomes the answer "Error: ...".
    [response.text] is read last (line 126), after the citations. *)
Definition chat_with_documents (question : pystr) (files : list File) (history : list Turn)
    : PyM R pystr :=
  try_except
    (model <- call_generative_model APP_MODEL ;;
     let full_prompt := app_prompt history question in
     response <- call_generate_content model (PText full_prompt :: map PFile files) ;;
     let citation_text := app_citation_text response in
     text <- lift (resp_text response) ;;
     ret (text +++ citation_text))
    (fun e => ret (py "Error: " +++ exc_msg e)).

(** The reference: the answer, by case. *)
Definition chat_answer (r : R) (question : pystr) (files : list File) (history : list Turn) : pystr :=
  let err e := py "Error: " +++ exc_msg e in
  match generative_model APP_MODEL r with
  | inl e => err e
  | inr model =>
      match generate_content model (PText (app_prompt history question) :: map PFile files) r with
      | inl e => err e
      | inr response =>
          match resp_text response with
          | inl e => err e
          | inr text => text +++ app_citation_text response
          end
      end
  end.

End Chat.


(** ** One run of the script *)

Definition WARN_SIGN : pystr := [WARN; 0xFE0F%N].   (* "⚠️" *)
Definition POINT_UP : N := 0x1F446.                 (* "👆" *)
Definition PAGE : N := 0x1F4C4.                     (* "📄" *)

Definition key_ok_msg : pystr := [CHECKMARK] +++ py " API Key configured".
Definition key_missing_msg : pystr := WARN_SIGN +++ py " Please enter your API key".
Definition created_msg (n : nat) : pystr :=
  [CHECKMARK] +++ py " Document store created with " +++ py_int n +++ py " files!".
Definition store_id_msg (sid : pystr) : pystr := py "Store ID: `" +++ sid +++ py "`".
Definition loaded_msg (n : nat) : pystr :=
  [CHECKMARK] +++ py " Loaded document store with " +++ py_int n +++ py " files!".
Definition load_failed_msg : pystr := [CROSS] +++ py " Could not load the document store".
Definition cleared_msg : pystr := [CHECKMARK] +++ py " All data cleared!".
Definition docs_failed_msg : pystr := [CROSS] +++ py " Could not load documents for chat".
Definition enter_key_info : pystr :=
  [POINT_UP] +++ py " Please enter your API key in the sidebar to get started.".
Definition load_docs_info : pystr :=
  [PAGE] +++ py " Upload documents or load an existing store from the sidebar to start chatting.".

(** [f"{st.session_state.store_id}"]. *)
Definition store_id_text (o : option pystr) : pystr :=
  match o with Some s => s | None => py "None" end.

(** [chat_history[-1]["answer"] = answer], on a non-empty history (the
    script appends a turn just before). *)
Definition set_last_answer (h : list Turn) (a : pystr) : list Turn :=
  alter (fun t => mkTurn (question t) a) (length h - 1) h.

Definition with_api_key (k : pystr) (s : Session) : Session :=
  mkSession (ss_store_id s) (ss_chat_history s) (ss_files_loaded s) (Some k).
Definition with_store (sid : pystr) (s : Session) : Session :=
  mkSession (Some sid) (ss_chat_history s) true (ss_api_key s).
Definition with_chat_history (h : list Turn) (s : Session) : Session :=
  mkSession (ss_store_id s) h (ss_files_loaded s) (ss_api_key s).
Definition cleared (s : Session) : Session := mkSession None [] false (ss_api_key s).

Section Script.
Context {R : Type} `{Genai R} `{PySet}.
Local Abbreviation AppM := (AppM R).

(** An output line of the page. *)
Definition ui (s : pystr) : AppM unit := alift (print s).

Definition set_session (f : Session -> Session) : AppM unit := s <-- aget ;;; aput (f s).

(** The read [st.session_state.api_key]. *)
Definition get_api_key : AppM pystr :=
  s <-- aget ;;;
  match ss_api_key s with
  | Some k => aret k
  | None => araise api_key_missing
  end.

(** Lines 146-150. *)
Definition key_section (i : Inputs) : AppM unit :=
  if truthy (in_api_key i)
  then set_session (with_api_key (in_api_key i)) ;;; ui key_ok_msg
  else ui key_missing_msg.

(** Lines 164-201. *)
Definition store_section (i : Inputs) : AppM unit :=
  match in_option i with
  | UploadNew =>
      if truthy (in_uploads i) && truthy (in_api_key i) then
        if in_create i then
          res <-- alift (create_document_store (in_api_key i) (in_uploads i)) ;;;
          match res with
          | (Some sid, num_files) =>
              if truthy sid
              then set_session (with_store sid) ;;; ui (created_msg num_files) ;;;
                   ui (store_id_msg sid) ;;; st_rerun
              else aret tt
          | (None, _) => aret tt
          end
        else aret tt
      else aret tt
  | LoadExisting =>
      if truthy (in_store_id i) && truthy (in_api_key i) then
        if in_load i then
          s <-- aget ;;;
          files <-- alift (load_document_store (ss_api_key s) (in_store_id i)) ;;;
          if truthy files
          then set_session (with_store (in_store_id i)) ;;; ui (loaded_msg (length files)) ;;; st_rerun
          else ui load_failed_msg
        else aret tt
      else aret tt
  end.

(** Lines 204-209. *)
Definition clear_section (i : Inputs) : AppM unit :=
  if in_clear i then set_session cleared ;;; ui cleared_msg ;;; st_rerun else aret tt.

(** Lines 225-248, for a submitted question [q]. *)
Definition chat_turn (q : pystr) : AppM unit :=
  s <-- aget ;;;
  files <-- alift (load_document_store (ss_api_key s) (store_id_text (ss_store_id s))) ;;;
  if truthy files then
    set_session (fun s => with_chat_history (ss_chat_history s ++ [mkTurn q []]) s) ;;;
    ui q ;;;
    s <-- aget ;;;
    answer <-- alift (chat_with_documents q files (removelast (ss_chat_history s))) ;;;
    ui answer ;;;
    set_session (fun s => with_chat_history (set_last_answer (ss_chat_history s) answer) s)
  else ui docs_failed_msg.

(** Lines 212-254. *)
Definition main_section (i : Inputs) : AppM unit :=
  s <-- aget ;;;
  active <-- (if ss_files_loaded s then k <-- get_api_key ;;; aret (truthy k) else aret false) ;;;
  if active then
    s <-- aget ;;;
    alift (py_for (ss_chat_history s) (fun t => print (question t) ;; print (answer t))) ;;;
    match in_question i with
    | Some q => if truthy q then chat_turn q else aret tt
    | None => aret tt
    end
  else
    k <-- get_api_key ;;;
    if negb (truthy k) then ui enter_key_info
    else s <-- aget ;;; if negb (ss_files_loaded s) then ui load_docs_info else aret tt.

(** One run of the script. *)
Definition app_script (i : Inputs) : AppM unit :=
  key_section i ;;; store_section i ;;; clear_section i ;;; main_section i.

(** A user event: a run, then the run [st.rerun()] starts. *)
Definition app_event (i : Inputs) : AppM unit := fun s w =>
  match app_script i s w with
  | (ARerun, s', w') => app_script (rerun_inputs i) s' w'
  | r => r
  end.

End Script.

(** The sessions a browser session reaches, whatever the widgets and
    the world at each event. *)
Inductive app_reachable `{Genai R} `{PySet} : Session -> Prop :=
| areach_start : app_reachable fresh_session
| areach_step s i (w : World R) o s' w' :
    app_reachable s -> app_event i s w = (o, s', w') -> app_reachable s'.

(** ** The contract of the conversation session (spec 4.3) *)

(** [addQuestion(q)]: append a turn with an empty answer, return its index. *)
Definition add_question (h : list Turn) (q : pystr) : list Turn * nat := (h ++ [mkTurn q []], length h).

(** [setAnswer(index, text)]. *)
Definition set_answer (h : list Turn) (idx : nat) (a : pystr) : list Turn :=
  alter (fun t => mkTurn (question t) a) idx h.

(** ** The session invariant *)

Definition session_inv (s : Session) : Prop :=
  ss_files_loaded s = bool_decide (is_Some (ss_store_id s)) /\
  match ss_api_key s with Some k => truthy k = true | None => True end /\
  (ss_files_loaded s = true -> is_Some (ss_api_key s)).

#[export] Instance session_inv_dec s : Decision (session_inv s).
Proof. unfold session_inv. destruct (ss_api_key s); apply _. Defined.

(** Within a run: the invariant, and the key typed in this run is the
    session's key. *)
Definition run_inv (i : Inputs) (s : Session) : Prop :=
  session_inv s /\ (truthy (in_api_key i) = true -> ss_api_key s = Some (in_api_key i)).


Section ScriptLemmas.
Context {R : Type} `{Genai R} `{PySet}.

Lemma preserves_set_session P f :
  (forall s, P s -> P (f s)) -> preserves P (set_session (R:=R) f).
Proof. intros Hf s w Hs. by apply Hf. Qed.

Lemma preserves_get_api_key P : preserves P (get_api_key (R:=R)).
Proof. intros s w Hs. unfold get_api_key, abind, aget. by destruct (ss_api_key s). Qed.

End ScriptLemmas.

(** Proves [preserves P m] by following the structure of [m]. *)
Ltac pres_step :=
  match goal with
  | |- forall _, _ => intros
  | |- preserves _ (abind aget _) => apply preserves_aget
  | |- preserves _ (abind _ _) => apply preserves_abind
  | |- preserves _ (if ?b then _ else _) => destruct b eqn:?
  | |- preserves _ (match ?x with _ => _ end) => destruct x eqn:?
  | |- preserves _ (aret _) => apply preserves_aret
  | |- preserves _ (alift _) => apply preserves_alift
  | |- preserves _ (araise _) => apply preserves_araise
  | |- preserves _ st_rerun => apply preserves_st_rerun
  | |- preserves _ (ui _) => apply preserves_alift
  | |- preserves _ get_api_key => apply preserves_get_api_key
  | |- preserves _ (set_session _) => apply preserves_set_session
  end.
Ltac pres_solve := repeat pres_step.

Section InvLemmas.
Context {R : Type} `{Genai R} `{PySet}.

Lemma key_section_inv i s (w : World R) :
  session_inv s -> run_inv i (key_section i s w).1.2.
Proof.
  intros (Hl & Hk & Hla). unfold key_section.
  destruct (truthy (in_api_key i)) eqn:Ek; unfold set_session, ui, abind, aget, aput, alift; simpl.
  - split; [|done]. split_and!; [exact Hl|exact Ek|by eauto].
  - split; [by split_and!|congruence].
Qed.

(** Recording a store keeps the invariant when this run's key is set. *)
Lemma with_store_inv i sid s :
  truthy (in_api_key i) = true -> run_inv i s -> run_inv i (with_store sid s).
Proof.
  intros Ht [(Hl & Hk & Hla) Hi]. specialize (Hi Ht).
  unfold with_store; simpl; rewrite Hi. split; [split_and!; [done|exact Ht|by eauto]|done].
Qed.

Lemma store_section_inv i : preserves (run_inv i) (store_section (R:=R) i).
Proof.
  unfold store_section. pres_solve.
  all: apply with_store_inv; [|assumption];
       match goal with H : _ && _ = true |- _ => by apply andb_true_iff in H as [_ ?] end.
Qed.

Lemma clear_section_inv i : preserves (run_inv i) (clear_section (R:=R) i).
Proof.
  unfold clear_section. pres_solve.
  match goal with H : run_inv _ _ |- _ => destruct H as [(Hl & Hk & Hla) Hi] end.
  split; [split_and!; [done|exact Hk|done]|exact Hi].
Qed.

Lemma with_chat_history_inv i h s : run_inv i s -> run_inv i (with_chat_history h s).
Proof. by destruct s. Qed.

Lemma main_section_inv i : preserves (run_inv i) (main_section (R:=R) i).
Proof.
  unfold main_section, chat_turn. pres_solve; by apply with_chat_history_inv.
Qed.

Lemma app_script_inv i s (w : World R) :
  session_inv s -> session_inv (app_script i s w).1.2.
Proof.
  intros Hs. unfold app_script, abind at 1.
  pose proof (key_section_inv i s w Hs) as Hk.
  destruct (key_section i s w) as [[[[]|e| |c|] s1] w1]; simpl in *; try apply Hk.
  apply (preserves_abind (run_inv i)); [apply store_section_inv| |exact Hk].
  intros _. apply preserves_abind; [apply clear_section_inv|]. intros _. apply main_section_inv.
Qed.

End InvLemmas.

Lemma app_event_inv {R} `{Genai R} `{PySet} i s (w : World R) :
  session_inv s -> session_inv (app_event i s w).1.2.
Proof.
  intros Hs. unfold app_event. pose proof (app_script_inv i s w Hs) as H1.
  destruct (app_script i s w) as [[[[]|e| |c|] s1] w1]; simpl in *; try exact H1.
  by apply app_script_inv.
Qed.

(** ** Properties of the session *)

(** C34. In every session a browser reaches, [files_loaded] holds exactly
    when a store id is recorded, a recorded API key is non-empty, and a
    loaded session has a key: every event keeps this, also when its run
    stops on an exception or is rerun. *)
Theorem app_reachable_inv `{Genai R} `{PySet} s :
  app_reachable s -> session_inv s.
Proof.
  induction 1 as [|s i w o s' w' _ IH Hev].
  - by repeat split.
  - pose proof (app_event_inv i s w IH) as Hs. by rewrite Hev in Hs.
Qed.

(** ** One event, by case *)

(** The session after the key section of a run, and its output line. *)
Definition key_session (i : Inputs) (s : Session) : Session :=
  if truthy (in_api_key i) then with_api_key (in_api_key i) s else s.
Definition key_line (i : Inputs) : pystr :=
  if truthy (in_api_key i) then key_ok_msg else key_missing_msg.

Section EventLemmas.
Context {R : Type} `{Genai R} `{PySet}.

Lemma key_section_eq i s (w : World R) :
  key_section i s w = (AOk tt, key_session i s, set_out (w_out w ++ [key_line i]) w).
Proof. unfold key_section, key_session, key_line. by destruct (truthy (in_api_key i)). Qed.

Lemma store_section_idle i s (w : World R) :
  in_create i = false -> in_load i = false -> store_section i s w = (AOk tt, s, w).
Proof.
  intros Hc Hl. unfold store_section. rewrite Hc, Hl.
  by destruct (in_option i); case_match.
Qed.

Lemma clear_section_idle i s (w : World R) :
  in_clear i = false -> clear_section i s w = (AOk tt, s, w).
Proof. intros Hc. unfold clear_section. by rewrite Hc. Qed.

Lemma chat_with_documents_eq q fs h (w : World R) :
  chat_with_documents q fs h w = (Ok (chat_answer (w_remote w) q fs h), w).
Proof.
  unfold chat_with_documents, chat_answer, try_except, bind, call_generative_model.
  destruct (generative_model APP_MODEL (w_remote w)) as [e|m]; [done|]. simpl.
  unfold call_generate_content. destruct (generate_content _ _ _) as [e|r]; [done|]. simpl.
  by destruct (resp_text r).
Qed.

Lemma set_last_answer_snoc h t a : set_last_answer (h ++ [t]) a = h ++ [mkTurn (question t) a].
Proof.
  unfold set_last_answer. rewrite length_app. simpl. replace (length h + 1 - 1) with (length h) by lia.
  induction h as [|x h IH]; [done|]. simpl. by f_equal.
Qed.

(** A question in a loaded session whose store resolves: the turn is
    appended, answered on the history before it, and its answer set. *)
Lemma chat_turn_eq q s k sd (w : World R) :
  ss_api_key s = Some k ->
  w_fs w !! store_file_name (store_id_text (ss_store_id s)) = Some (FJson (store_json sd)) ->
  truthy (resolved (w_remote w) (map JStr (store_files sd))) = true ->
  (chat_turn q s w).1 =
  (AOk tt, with_chat_history (ss_chat_history s ++
             [mkTurn q (chat_answer (w_remote w) q (resolved (w_remote w) (map JStr (store_files sd)))
                                    (ss_chat_history s))]) s) /\
  w_remote (chat_turn q s w).2 = w_remote w /\ w_fs (chat_turn q s w).2 = w_fs w /\
  w_genai_key (chat_turn q s w).2 =
    w_genai_key (snd (load_document_store (Some k) (store_id_text (ss_store_id s)) w)).
Proof.
  intros Hk Hfs Ht. destruct (load_document_store_doc k _ _ w Hfs) as (w' & E & Hr & Hf).
  unfold chat_turn. rewrite (abind_ok aget _ s w s s w) by done.
  rewrite Hk. erewrite abind_ok; [|apply alift_ok, E]. rewrite E.
  rewrite Ht. unfold set_session, ui, abind, aget, aput, alift.
  cbn [print modify]. rewrite chat_with_documents_eq. cbn [print modify].
  unfold with_chat_history at 2 3 4. cbn [ss_chat_history].
  rewrite removelast_last, !w_remote_set_out, set_last_answer_snoc, Hr.
  split_and!; [|done|exact Hf|done]. unfold with_chat_history. by destruct s.
Qed.

(** The history shown by lines 218-222. *)
Definition history_view (h : list Turn) : list pystr := concat (map (fun t => [question t; answer t]) h).

Lemma show_history_eq h (w : World R) :
  py_for h (fun t => print (question t) ;; print (answer t)) w =
  (Ok tt, set_out (w_out w ++ history_view h) w).
Proof.
  revert w. induction h as [|t h IH]; intros w; cbn [py_for].
  - rewrite app_nil_r. by destruct w.
  - rewrite bind_assoc, bind_print. cbn beta. rewrite bind_print, IH.
    unfold history_view. cbn [map concat].
    by rewrite !w_out_set_out, !set_out_set_out, <- !app_assoc.
Qed.

Lemma main_section_chat i q s k (w : World R) :
  ss_files_loaded s = true -> ss_api_key s = Some k -> truthy k = true ->
  in_question i = Some q -> truthy q = true ->
  main_section i s w = chat_turn q s (set_out (w_out w ++ history_view (ss_chat_history s)) w).
Proof.
  intros Hl Hk Htk Hq Htq. unfold main_section. rewrite (abind_ok aget _ s w s s w) by done.
  rewrite Hl. unfold get_api_key. unfold abind at 1 2 3, aget. rewrite Hk. unfold aret. rewrite Htk.
  unfold abind at 1, aget. unfold abind, alift. rewrite show_history_eq. by rewrite Hq, Htq.
Qed.

(** Without a question, the main area only reads the session. *)
Lemma main_section_no_question i s (w : World R) :
  in_question i = None -> (main_section i s w).1.2 = s.
Proof.
  intros Hq. enough (Hp : preserves (fun x => x = s) (main_section (R:=R) i)) by (by apply Hp).
  unfold main_section. pres_solve; congruence.
Qed.

(** Without loaded files, the main area only reads the session. *)
Lemma main_section_unloaded i s (w : World R) :
  ss_files_loaded s = false -> (main_section i s w).1.2 = s.
Proof.
  intros Hl. unfold main_section. rewrite (abind_ok aget _ s w s s w) by done. rewrite Hl.
  rewrite (abind_ok (aret false) _ s w false s w) by done.
  match goal with |- (?m s w).1.2 = s =>
    enough (Hp : preserves (fun x => x = s) m) by (by apply Hp) end.
  pres_solve.
Qed.

(** Without a key ever set, the main area raises [AttributeError]. *)
Lemma main_section_no_key i s (w : World R) :
  ss_api_key s = None ->
  exists e, (main_section i s w).1.1 = ARaise e /\ exc_kind e = AttributeError.
Proof.
  intros Hk. unfold main_section, get_api_key, abind, aget, aret, araise.
  destruct (ss_files_loaded s); cbn beta iota; rewrite Hk; cbn beta iota; eauto.
Qed.

End EventLemmas.

Section KeySession.

Lemma key_session_fields i s :
  ss_store_id (key_session i s) = ss_store_id s /\
  ss_chat_history (key_session i s) = ss_chat_history s /\
  ss_files_loaded (key_session i s) = ss_files_loaded s.
Proof. unfold key_session. by destruct (truthy (in_api_key i)). Qed.

Lemma key_session_key i s k :
  ss_api_key s = Some k -> truthy k = true ->
  exists k', ss_api_key (key_session i s) = Some k' /\ truthy k' = true.
Proof. unfold key_session. destruct (truthy (in_api_key i)) eqn:E; simpl; eauto. Qed.

End KeySession.

(** ** Properties of the web app *)

Section ChatEvent.
Context {R : Type} `{Genai R} `{PySet}.

(** A question in a loaded session whose store resolves, with no button
    clicked: the event is the chat turn of the session the key section
    leaves, on a world with the same files and service. *)
Lemma app_event_chat i s (w : World R) k q sd :
  ss_files_loaded s = true -> ss_api_key s = Some k -> truthy k = true ->
  in_create i = false -> in_load i = false -> in_clear i = false ->
  in_question i = Some q -> truthy q = true ->
  w_fs w !! store_file_name (store_id_text (ss_store_id s)) = Some (FJson (store_json sd)) ->
  truthy (resolved (w_remote w) (map JStr (store_files sd))) = true ->
  exists k' w2, ss_api_key (key_session i s) = Some k' /\
    w_fs w2 !! store_file_name (store_id_text (ss_store_id (key_session i s))) =
      Some (FJson (store_json sd)) /\
    w_remote w2 = w_remote w /\ app_event i s w = chat_turn q (key_session i s) w2.
Proof.
  intros Hl Hk Htk Hc Hld Hcl Hq Htq Hfs Hres.
  destruct (key_session_fields i s) as (Es & Eh & El).
  destruct (key_session_key i s k Hk Htk) as (k' & Hk' & Htk').
  set (w2 := set_out (w_out (set_out (w_out w ++ [key_line i]) w) ++
                      history_view (ss_chat_history (key_session i s)))
                     (set_out (w_out w ++ [key_line i]) w)).
  assert (Escript : app_script i s w = chat_turn q (key_session i s) w2).
  { unfold app_script.
    rewrite (abind_ok _ _ _ _ _ _ _ (key_section_eq i s w)).
    rewrite (abind_ok _ _ _ _ _ _ _ (store_section_idle _ _ _ Hc Hld)).
    rewrite (abind_ok _ _ _ _ _ _ _ (clear_section_idle _ _ _ Hcl)).
    by rewrite (main_section_chat _ q _ k') by (by rewrite ?El). }
  assert (Hfs2 : w_fs w2 !! store_file_name (store_id_text (ss_store_id (key_session i s))) =
                 Some (FJson (store_json sd))) by (by rewrite Es).
  exists k', w2. split_and!; [done|exact Hfs2|done|].
  destruct (chat_turn_eq q _ k' sd w2 Hk' Hfs2 Hres) as [E _].
  unfold app_event. rewrite Escript.
  destruct (chat_turn q (key_session i s) w2) as [[o s'] w'].
  simpl in E. by injection E as -> _.
Qed.

End ChatEvent.

Section AppProps.
Context {R : Type} `{Genai R} `{PySet}.

(** C35. A question asked in a loaded session implements the session
    contract: the turn is added with an empty answer ([addQuestion]),
    answered from the files the store resolves with the prompt of the
    turns before it, and its answer is set in place ([setAnswer]); the
    history grows by exactly that turn and the store stays loaded. *)
Theorem app_chat_event i s (w : World R) k q sd :
  ss_files_loaded s = true -> ss_api_key s = Some k -> truthy k = true ->
  in_create i = false -> in_load i = false -> in_clear i = false ->
  in_question i = Some q -> truthy q = true ->
  w_fs w !! store_file_name (store_id_text (ss_store_id s)) = Some (FJson (store_json sd)) ->
  truthy (resolved (w_remote w) (map JStr (store_files sd))) = true ->
  let h := ss_chat_history s in
  let answer := chat_answer (w_remote w) q (resolved (w_remote w) (map JStr (store_files sd))) h in
  (app_event i s w).1.1 = AOk tt /\
  ss_chat_history (app_event i s w).1.2 = set_answer (add_question h q).1 (add_question h q).2 answer /\
  ss_chat_history (app_event i s w).1.2 = h ++ [mkTurn q answer] /\
  ss_store_id (app_event i s w).1.2 = ss_store_id s /\
  ss_files_loaded (app_event i s w).1.2 = true.
Proof.
  intros Hl Hk Htk Hc Hld Hcl Hq Htq Hfs Hres h answer.
  destruct (key_session_fields i s) as (Es & Eh & El).
  destruct (app_event_chat i s w k q sd) as (k' & w2 & Hk' & Hfs2 & Hr2 & Eev); [done..|].
  rewrite <- Hr2 in Hres. destruct (chat_turn_eq q _ k' sd w2 Hk' Hfs2 Hres) as [E _].
  rewrite Eev, E. rewrite Hr2 in *.
  cbn [fst snd ss_chat_history ss_store_id ss_files_loaded with_chat_history].
  rewrite Eh, Es, El. subst h answer. unfold add_question, set_answer. cbn [fst snd].
  replace (length (ss_chat_history s)) with (length (ss_chat_history s ++ [mkTurn q []]) - 1)
    by (rewrite length_app; simpl; lia).
  fold (set_last_answer (ss_chat_history s ++ [mkTurn q []])
          (chat_answer (w_remote w) q (resolved (w_remote w) (map JStr (store_files sd)))
                       (ss_chat_history s))).
  rewrite set_last_answer_snoc. by split_and!.
Qed.

(** C12. A chat turn of the web app calls the service with the library
    configured to the session's own key: [load_document_store] runs
    [genai.configure] with [st.session_state.api_key] before it resolves
    the files and [chat_with_documents] calls the model, so whatever key
    the process was configured with before (by another session, say) the
    turn ends with the session's key set. *)
Theorem app_chat_session_key i s (w : World R) k q sd :
  ss_files_loaded s = true -> ss_api_key s = Some k -> truthy k = true ->
  in_create i = false -> in_load i = false -> in_clear i = false ->
  in_question i = Some q -> truthy q = true ->
  w_fs w !! store_file_name (store_id_text (ss_store_id s)) = Some (FJson (store_json sd)) ->
  truthy (resolved (w_remote w) (map JStr (store_files sd))) = true ->
  w_genai_key (app_event i s w).2 = ss_api_key (key_session i s).
Proof.
  intros Hl Hk Htk Hc Hld Hcl Hq Htq Hfs Hres.
  destruct (app_event_chat i s w k q sd) as (k' & w2 & Hk' & Hfs2 & Hr2 & Eev); [done..|].
  rewrite <- Hr2 in Hres. destruct (chat_turn_eq q _ k' sd w2 Hk' Hfs2 Hres) as (_ & _ & _ & Ek).
  rewrite Eev, Ek, Hk'. exact (load_document_store_key k' _ _ w2 Hfs2).
Qed.


End AppProps.

Section EventCases.
Context {R : Type} `{Genai R} `{PySet}.

Lemma key_session_same i s :
  (truthy (in_api_key i) = true -> ss_api_key s = Some (in_api_key i)) -> key_session i s = s.
Proof.
  unfold key_session, with_api_key. destruct (truthy (in_api_key i)); [|done].
  intros Hk. rewrite <- Hk by done. by destruct s.
Qed.

Lemma store_section_no_key i s (w : World R) :
  truthy (in_api_key i) = false -> store_section i s w = (AOk tt, s, w).
Proof.
  intros Hk. unfold store_section. rewrite Hk, !andb_false_r. by destruct (in_option i).
Qed.

Lemma clear_section_clicked i s (w : World R) :
  in_clear i = true ->
  clear_section i s w = (ARerun, cleared s, set_out (w_out w ++ [cleared_msg]) w).
Proof. intros Hc. unfold clear_section. by rewrite Hc. Qed.

(** A run that clicks nothing but may load the key: the key section,
    then the main area. *)
Lemma app_script_idle i s (w : World R) :
  in_create i = false -> in_load i = false -> in_clear i = false ->
  app_script i s w = main_section i (key_session i s) (set_out (w_out w ++ [key_line i]) w).
Proof.
  intros Hc Hl Hcl. unfold app_script.
  rewrite (abind_ok _ _ _ _ _ _ _ (key_section_eq i s w)).
  rewrite (abind_ok _ _ _ _ _ _ _ (store_section_idle _ _ _ Hc Hl)).
  by rewrite (abind_ok _ _ _ _ _ _ _ (clear_section_idle _ _ _ Hcl)).
Qed.

(** A run that clicks "Clear All Data" (and no store button). *)
Lemma app_script_clear i s (w : World R) :
  in_create i = false -> in_load i = false -> in_clear i = true ->
  exists w', app_script i s w = (ARerun, cleared (key_session i s), w').
Proof.
  intros Hc Hl Hcl. unfold app_script.
  rewrite (abind_ok _ _ _ _ _ _ _ (key_section_eq i s w)).
  rewrite (abind_ok _ _ _ _ _ _ _ (store_section_idle _ _ _ Hc Hl)).
  unfold abind at 1. rewrite clear_section_clicked by done. eauto.
Qed.

Lemma rerun_idle i : in_create (rerun_inputs i) = false /\ in_load (rerun_inputs i) = false /\
  in_clear (rerun_inputs i) = false /\ in_question (rerun_inputs i) = None.
Proof. done. Qed.

(** The run [st.rerun()] starts after a button keeps the session when
    the key field holds the session's key. *)
Lemma rerun_session i t (w : World R) :
  (truthy (in_api_key i) = true -> ss_api_key t = Some (in_api_key i)) ->
  (app_script (rerun_inputs i) t w).1.2 = t.
Proof.
  intros Hk. destruct (rerun_idle i) as (Hc & Hl & Hcl & Hq).
  rewrite app_script_idle by done. rewrite key_session_same by exact Hk.
  by apply main_section_no_question.
Qed.

(** An event whose only click is a store button, without a question:
    the session is the one the store section leaves, whether or not it
    reruns the page. *)
Lemma app_event_store_click i s (w : World R) (b : bool) s1 w' :
  in_clear i = false -> in_question i = None -> ss_api_key s1 = Some (in_api_key i) ->
  store_section i (key_session i s) (set_out (w_out w ++ [key_line i]) w) =
    (if b then ARerun else AOk tt, s1, w') ->
  (app_event i s w).1.2 = s1.
Proof.
  intros Hcl Hq Hk1 Est. unfold app_event, app_script at 1.
  rewrite (abind_ok _ _ _ _ _ _ _ (key_section_eq i s w)). unfold abind at 1. rewrite Est.
  destruct b; [by apply rerun_session|].
  rewrite (abind_ok _ _ _ _ _ _ _ (clear_section_idle _ _ _ Hcl)).
  destruct (main_section i s1 w') as [[o s'] w''] eqn:Em.
  pose proof (main_section_no_question i s1 w' Hq) as Hm. rewrite Em in Hm.
  simpl in Hm. subst s'. destruct o; try done. by apply rerun_session.
Qed.

End EventCases.

Section AppErrorProps.
Context {R : Type} `{Genai R} `{PySet}.

(** C36. Until an API key has been typed, every event ends with
    [AttributeError]: the key field is empty, so line 147 never assigns
    [st.session_state.api_key], and line 251 (or 212) reads it; after
    "Clear All Data" the rerun reads it too.  In particular the first
    page of a new browser session fails. *)
Theorem app_no_key_raises i s (w : World R) :
  ss_api_key s = None -> truthy (in_api_key i) = false ->
  exists e, (app_event i s w).1.1 = ARaise e /\ exc_kind e = AttributeError.
Proof.
  intros Hk Ht.
  assert (Hks : forall j t, truthy (in_api_key j) = false -> key_session j t = t)
    by (intros j t Hj; unfold key_session; by rewrite Hj).
  assert (Hrun : forall j t (u : World R), ss_api_key t = None -> truthy (in_api_key j) = false ->
            in_clear j = false ->
            exists e, (app_script j t u).1.1 = ARaise e /\ exc_kind e = AttributeError).
  { intros j t u Htk Hj Hc. unfold app_script.
    rewrite (abind_ok _ _ _ _ _ _ _ (key_section_eq j t u)), Hks by done.
    rewrite (abind_ok _ _ _ _ _ _ _ (store_section_no_key _ _ _ Hj)).
    rewrite (abind_ok _ _ _ _ _ _ _ (clear_section_idle _ _ _ Hc)).
    by apply main_section_no_key. }
  unfold app_event. destruct (in_clear i) eqn:Ec.
  - unfold app_script at 1.
    rewrite (abind_ok _ _ _ _ _ _ _ (key_section_eq i s w)), Hks by done.
    rewrite (abind_ok _ _ _ _ _ _ _ (store_section_no_key _ _ _ Ht)).
    unfold abind at 1. rewrite clear_section_clicked by done. by apply Hrun.
  - destruct (Hrun i s w Hk Ht Ec) as (e & He & Hke).
    destruct (app_script i s w) as [[o s'] w']. simpl in He. subst o. eauto.
Qed.

(** C37. "Clear All Data" empties the store id, the history and the
    loaded flag but keeps the API key: the session's credential survives
    the clear (and an emptied key field), where the spec's session
    context is cleared on the "clear data" action. *)
Theorem app_clear_event i s (w : World R) :
  in_create i = false -> in_load i = false -> in_clear i = true ->
  (app_event i s w).1.2 =
  mkSession None [] false (if truthy (in_api_key i) then Some (in_api_key i) else ss_api_key s).
Proof.
  intros Hc Hl Hcl. destruct (app_script_clear i s w Hc Hl Hcl) as [w' E].
  unfold app_event. rewrite E.
  destruct (rerun_idle i) as (Hc' & Hl' & Hcl' & _).
  rewrite app_script_idle by done.
  rewrite key_session_same.
  - rewrite main_section_unloaded by done. unfold cleared, key_session.
    by destruct (truthy (in_api_key i)).
  - unfold cleared, key_session. simpl. by intros ->.
Qed.

(** C38. Loading an existing store with the button: when some file of
    the store resolves, the session records the typed store id and is
    marked loaded (then the page reruns); when none does, the session is
    left as it was, but for the typed key. *)
Theorem app_load_event i s (w : World R) sd :
  in_option i = LoadExisting -> in_load i = true -> in_clear i = false ->
  in_question i = None -> truthy (in_store_id i) = true -> truthy (in_api_key i) = true ->
  w_fs w !! store_file_name (in_store_id i) = Some (FJson (store_json sd)) ->
  (app_event i s w).1.2 =
  if truthy (resolved (w_remote w) (map JStr (store_files sd)))
  then with_store (in_store_id i) (key_session i s) else key_session i s.
Proof.
  intros Ho Hld Hcl Hq Hsid Hkey Hfs.
  assert (Hks : ss_api_key (key_session i s) = Some (in_api_key i))
    by (unfold key_session; by rewrite Hkey).
  assert (Hst : exists w',
    store_section i (key_session i s) (set_out (w_out w ++ [key_line i]) w) =
    (if truthy (resolved (w_remote w) (map JStr (store_files sd))) then ARerun else AOk tt,
     if truthy (resolved (w_remote w) (map JStr (store_files sd)))
     then with_store (in_store_id i) (key_session i s) else key_session i s, w')).
  { unfold store_section. rewrite Ho, Hsid, Hkey, Hld. simpl.
    rewrite (abind_ok aget _ (key_session i s) _ (key_session i s) (key_session i s) _) by done.
    destruct (load_document_store_doc (in_api_key i) _ _ (set_out (w_out w ++ [key_line i]) w) Hfs)
      as (w1 & E & _ & _).
    rewrite Hks. erewrite abind_ok; [|apply alift_ok, E].
    rewrite w_remote_set_out.
    by destruct (truthy (resolved (w_remote w) (map JStr (store_files sd)))); eexists. }
  destruct Hst as (w' & Est). eapply app_event_store_click; [done|done| |exact Est].
  by destruct (truthy (resolved (w_remote w) (map JStr (store_files sd)))); exact Hks.
Qed.

(** C19. Creating a store with the button composes app.py's builder
    with the session: when every upload succeeds, the session records the
    new store's id (the next uuid4()) and is marked loaded (then the page
    reruns); when one upload fails, the builder returns (None, 0) and the
    session is left as it was, but for the typed key. *)
Theorem app_create_event i s (w : World R) :
  in_option i = UploadNew -> in_create i = true -> in_clear i = false ->
  in_question i = None -> truthy (in_uploads i) = true -> truthy (in_api_key i) = true ->
  truthy (w_uuid w (w_uuids w)) = true ->
  (app_event i s w).1.2 =
  match app_run_uploads (w_remote w) (map (fun u => papers_path u.1) (in_uploads i)) with
  | inl _ => key_session i s
  | inr _ => with_store (w_uuid w (w_uuids w)) (key_session i s)
  end.
Proof.
  intros Ho Hc Hcl Hq Hup Hkey Hid.
  destruct (create_document_store_result (R:=R) (in_api_key i) (in_uploads i) (set_out (w_out w ++ [key_line i]) w))
    as [w1 Ecr].
  rewrite w_remote_set_out in Ecr. cbn [w_uuid w_uuids set_out] in Ecr.
  destruct (app_run_uploads (w_remote w) _) as [[e r]|[gfs r']] eqn:Eup.
  - eapply (app_event_store_click _ _ _ false); [done|done| |].
    + unfold key_session. by rewrite Hkey.
    + unfold store_section. rewrite Ho, Hup, Hkey, Hc. simpl.
      by rewrite (abind_ok _ _ _ _ _ _ _ (alift_ok _ _ _ _ _ Ecr)).
  - eapply (app_event_store_click _ _ _ true); [done|done| |].
    + unfold key_session. by rewrite Hkey.
    + unfold store_section. rewrite Ho, Hup, Hkey, Hc. simpl.
      rewrite (abind_ok _ _ _ _ _ _ _ (alift_ok _ _ _ _ _ Ecr)). rewrite Hid. simpl.
      reflexivity.
Qed.

End AppErrorProps.

Lemma areach_event `{Genai R} `{PySet} i s (w : World R) :
  app_reachable s -> app_reachable (app_event i s w).1.2.
Proof.
  intros Hs. apply (areach_step s i w (app_event i s w).1.1 _ (app_event i s w).2 Hs).
  by destruct (app_event i s w) as [[]].
Qed.

(** ** A browser session, and witnesses *)

Definition app_file : File := mkFile (py "files/a1") (py "papers/a.pdf").
Definition app_store : StoreRecord := mkStore (py "s1") (py "Research Papers Collection") [py "files/a1"].
Definition app_response : Response :=
  mkResp (inr (py "X is a method.")) (Some [mkCand (Some [mkAttr None (Some (py "gs://b/a.pdf"))])]).

Definition app_world : World SimGenai.state :=
  mkWorld {[ store_file_name (py "s1") := FJson (store_json app_store) ]}
          (SimGenai.mkState {[ py "files/a1" := app_file ]} [] [APP_MODEL] (fun _ => inr app_response) [])
          [] [] 0 (fun _ => py "u1") 0 ∅ None.

(** Type the key "k1", keep "Upload New Documents", drop one PDF, click
    Create. *)
Definition ev_create : Inputs :=
  mkInputs (py "k1") UploadNew [(py "b.pdf", py "%PDF-1.4")] true [] false false None.

(** The same event against a service that rejects the upload. *)
Definition app_world_rejecting : World SimGenai.state :=
  set_remote (SimGenai.mkState ∅ [py "papers/b.pdf"] [APP_MODEL] (fun _ => inr app_response) [])
             app_world.

(** Type the key "k1", choose "Load Existing Store", type "s1", click Load. *)
Definition ev_load : Inputs := mkInputs (py "k1") LoadExisting [] false (py "s1") true false None.
(** Ask a question. *)
Definition ev_ask : Inputs := mkInputs (py "k1") LoadExisting [] false (py "s1") false false (Some (py "What is X?")).
(** Empty the key field and click "Clear All Data". *)
Definition ev_clear : Inputs := mkInputs [] LoadExisting [] false (py "s1") false true None.
(** The first page, before anything is typed. *)
Definition ev_first : Inputs := mkInputs [] UploadNew [] false [] false false None.

Definition app_s1 : Session := (app_event ev_load fresh_session app_world).1.2.
Definition app_s2 : Session := (app_event ev_ask app_s1 app_world).1.2.

Example app_s1_value : app_s1 = mkSession (Some (py "s1")) [] true (Some (py "k1")).
Proof. vm_compute. reflexivity. Qed.

Example app_s2_value :
  app_s2 = mkSession (Some (py "s1"))
             [mkTurn (py "What is X?")
                     (py "X is a method." +++ [NL; NL; BOOKS] +++ py " **Sources:** a.pdf")]
             true (Some (py "k1")).
Proof. vm_compute. reflexivity. Qed.

Lemma app_s1_reachable : app_reachable app_s1.
Proof. apply areach_event, areach_start. Qed.

Lemma app_reachable_inv_witness : app_reachable app_s1 /\ session_inv app_s1.
Proof. split; [exact app_s1_reachable|exact (app_reachable_inv _ app_s1_reachable)]. Defined.

Lemma app_chat_event_witness :
  let sd := app_store in
  ss_files_loaded app_s1 = true /\ ss_api_key app_s1 = Some (py "k1") /\ truthy (py "k1") = true /\
  in_create ev_ask = false /\ in_load ev_ask = false /\ in_clear ev_ask = false /\
  in_question ev_ask = Some (py "What is X?") /\ truthy (py "What is X?") = true /\
  w_fs app_world !! store_file_name (store_id_text (ss_store_id app_s1)) = Some (FJson (store_json sd)) /\
  truthy (resolved (w_remote app_world) (map JStr (store_files sd))) = true /\
  let h := ss_chat_history app_s1 in
  let answer := chat_answer (w_remote app_world) (py "What is X?")
                  (resolved (w_remote app_world) (map JStr (store_files sd))) h in
  (app_event ev_ask app_s1 app_world).1.1 = AOk tt /\
  ss_chat_history (app_event ev_ask app_s1 app_world).1.2 =
    set_answer (add_question h (py "What is X?")).1 (add_question h (py "What is X?")).2 answer /\
  ss_chat_history (app_event ev_ask app_s1 app_world).1.2 = h ++ [mkTurn (py "What is X?") answer] /\
  ss_store_id (app_event ev_ask app_s1 app_world).1.2 = ss_store_id app_s1 /\
  ss_files_loaded (app_event ev_ask app_s1 app_world).1.2 = true.
Proof.
  intros sd.
  assert (H1 : ss_files_loaded app_s1 = true) by (vm_compute; reflexivity).
  assert (H2 : ss_api_key app_s1 = Some (py "k1")) by (vm_compute; reflexivity).
  assert (H3 : truthy (py "k1") = true) by reflexivity.
  assert (H7 : in_question ev_ask = Some (py "What is X?")) by reflexivity.
  assert (H8 : truthy (py "What is X?") = true) by reflexivity.
  assert (H9 : w_fs app_world !! store_file_name (store_id_text (ss_store_id app_s1)) =
               Some (FJson (store_json sd))) by (vm_compute; reflexivity).
  assert (H10 : truthy (resolved (w_remote app_world) (map JStr (store_files sd))) = true)
    by (vm_compute; reflexivity).
  pose proof (app_chat_event ev_ask app_s1 app_world (py "k1") (py "What is X?") sd
                H1 H2 H3 eq_refl eq_refl eq_refl H7 H8 H9 H10) as T.
  cbv zeta in T |- *. destruct T as (T1 & T2 & T3 & T4 & T5).
  split_and!; [exact H1|exact H2|exact H3|reflexivity|reflexivity|reflexivity|exact H7|exact H8
              |exact H9|exact H10|exact T1|exact T2|exact T3|exact T4|exact T5].
Defined.

Lemma app_no_key_raises_witness :
  ss_api_key fresh_session = None /\ truthy (in_api_key ev_first) = false /\
  exists e, (app_event ev_first fresh_session app_world).1.1 = ARaise e /\ exc_kind e = AttributeError.
Proof.
  split_and!; [reflexivity|reflexivity|]. exact (app_no_key_raises ev_first fresh_session app_world eq_refl eq_refl).
Defined.

Lemma app_clear_event_witness :
  in_create ev_clear = false /\ in_load ev_clear = false /\ in_clear ev_clear = true /\
  (app_event ev_clear app_s2 app_world).1.2 =
  mkSession None [] false (if truthy (in_api_key ev_clear) then Some (in_api_key ev_clear) else ss_api_key app_s2) /\
  ss_api_key (app_event ev_clear app_s2 app_world).1.2 = Some (py "k1").
Proof.
  assert (E := app_clear_event ev_clear app_s2 app_world eq_refl eq_refl eq_refl).
  split_and!; [reflexivity|reflexivity|reflexivity|exact E|]. rewrite E. vm_compute. reflexivity.
Defined.

Lemma app_load_event_witness :
  in_option ev_load = LoadExisting /\ in_load ev_load = true /\ in_clear ev_load = false /\
  in_question ev_load = None /\ truthy (in_store_id ev_load) = true /\ truthy (in_api_key ev_load) = true /\
  w_fs app_world !! store_file_name (in_store_id ev_load) = Some (FJson (store_json app_store)) /\
  (app_event ev_load fresh_session app_world).1.2 =
  if truthy (resolved (w_remote app_world) (map JStr (store_files app_store)))
  then with_store (in_store_id ev_load) (key_session ev_load fresh_session)
  else key_session ev_load fresh_session.
Proof.
  assert (Hfs : w_fs app_world !! store_file_name (in_store_id ev_load) = Some (FJson (store_json app_store)))
    by (vm_compute; reflexivity).
  split_and!; [reflexivity..|exact Hfs|].
  exact (app_load_event ev_load fresh_session app_world app_store eq_refl eq_refl eq_refl eq_refl
           eq_refl eq_refl Hfs).
Defined.

(** The created store's id is the next uuid4(); a rejected upload leaves
    the new session with its key only. *)
Example app_create_values :
  (app_event ev_create fresh_session app_world).1.2 = mkSession (Some (py "u1")) [] true (Some (py "k1")) /\
  (app_event ev_create fresh_session app_world_rejecting).1.2 = mkSession None [] false (Some (py "k1")).
Proof. split; vm_compute; reflexivity. Qed.

Lemma app_create_event_witness :
  in_option ev_create = UploadNew /\ in_create ev_create = true /\ in_clear ev_create = false /\
  in_question ev_create = None /\ truthy (in_uploads ev_create) = true /\
  truthy (in_api_key ev_create) = true /\ truthy (w_uuid app_world (w_uuids app_world)) = true /\
  (app_event ev_create fresh_session app_world).1.2 =
  match app_run_uploads (w_remote app_world) (map (fun u => papers_path u.1) (in_uploads ev_create)) with
  | inl _ => key_session ev_create fresh_session
  | inr _ => with_store (w_uuid app_world (w_uuids app_world)) (key_session ev_create fresh_session)
  end.
Proof.
  split_and!; [reflexivity..|].
  exact (app_create_event ev_create fresh_session app_world eq_refl eq_refl eq_refl eq_refl
           eq_refl eq_refl eq_refl).
Defined.

(** The process was last configured by another session, with "k2". *)
Definition app_world_k2 : World SimGenai.state := set_genai_key (Some (py "k2")) app_world.

Lemma app_chat_session_key_witness :
  ss_files_loaded app_s1 = true /\ ss_api_key app_s1 = Some (py "k1") /\ truthy (py "k1") = true /\
  in_create ev_ask = false /\ in_load ev_ask = false /\ in_clear ev_ask = false /\
  in_question ev_ask = Some (py "What is X?") /\ truthy (py "What is X?") = true /\
  w_fs app_world_k2 !! store_file_name (store_id_text (ss_store_id app_s1)) =
    Some (FJson (store_json app_store)) /\
  truthy (resolved (w_remote app_world_k2) (map JStr (store_files app_store))) = true /\
  w_genai_key app_world_k2 = Some (py "k2") /\
  w_genai_key (app_event ev_ask app_s1 app_world_k2).2 = ss_api_key (key_session ev_ask app_s1).
Proof.
  assert (H1 : ss_files_loaded app_s1 = true) by (vm_compute; reflexivity).
  assert (H2 : ss_api_key app_s1 = Some (py "k1")) by (vm_compute; reflexivity).
  assert (H9 : w_fs app_world_k2 !! store_file_name (store_id_text (ss_store_id app_s1)) =
               Some (FJson (store_json app_store))) by (vm_compute; reflexivity).
  assert (H10 : truthy (resolved (w_remote app_world_k2) (map JStr (store_files app_store))) = true)
    by (vm_compute; reflexivity).
  split_and!; [exact H1|exact H2|reflexivity..|exact H9|exact H10|reflexivity|].
  exact (app_chat_session_key ev_ask app_s1 app_world_k2 (py "k1") (py "What is X?") app_store
           H1 H2 eq_refl eq_refl eq_refl eq_refl eq_refl eq_refl H9 H10).
Defined.

(** On that world the turn ends with "k1" configured. *)
Example app_chat_k2_value :
  w_genai_key (app_event ev_ask app_s1 app_world_k2).2 = Some (py "k1").
Proof. vm_compute. reflexivity. Qed.

(** Two sessions of one Streamlit process, "k1" and "k2", whose chat
    turns interleave at the network call of session k1 (Streamlit runs
    each session's script in a thread of its own): k1's loader
    configures "k1", then k2's loader configures "k2", and k1's
    [chat_with_documents] then runs on a world configured with "k2". *)
Example app_interleaved_turns_key :
  let wA := snd (load_document_store (R:=SimGenai.state) (Some (py "k1")) (py "s1") app_world) in
  let wB := snd (load_document_store (R:=SimGenai.state) (Some (py "k2")) (py "s1") wA) in
  w_genai_key wA = Some (py "k1") /\ w_genai_key wB = Some (py "k2") /\
  w_genai_key (snd (chat_with_documents (py "What is X?") [app_file] [] wB)) = Some (py "k2").
Proof. vm_compute. split_and!; reflexivity. Qed.
